(** * Rank-based evaluation of knowledge-graph embeddings

    A shallow embedding of [src/pykeen/evaluation/rank_based_evaluator.py]:
    the rank computation [compute_rank_from_scores], the result container
    [RankBasedMetricResults] with [get_metric] and [to_flat_dict], and the
    accumulating [RankBasedEvaluator]; and of the method [create_instances]
    of [TriplesNumericLiteralsFactory].

    Modelling conventions.
    - Scores are IEEE-754 values ([spec_float]): the source only ever
      compares them ([>], [>=]) and tests them with [torch.isfinite].
    - Integer tensors (sums of boolean tensors) hold [Z]; a count is bounded
      by the width of a row, so the 64-bit wrap-around is never reached.
    - Floating-point tensors that the code computes (average rank, adjusted
      rank, the aggregates of [finalize]) hold [fnum]: exact rationals
      extended with the two infinities and not-a-number; the special values
      follow IEEE-754.  These are the values before rounding.  The rounding
      of the average rank, which torch computes in binary32, is modelled
      beside it by [average_rank_float32]: the two agree as long as the
      sum of the best and the worst rank is below [2^24], and differ
      beyond.
    - [true_score] has shape [(batch_size, 1)] and [all_scores] has shape
      [(batch_size, num_entities)], as the docstring of
      [compute_rank_from_scores] says.  Binary tensor operations broadcast
      as in torch: sizes along a dimension must agree unless one is 1.
    - A Python [dict] is a [gmap]; the dict literal returned by
      [compute_rank_from_scores] is kept as an association list in insertion
      order, which is the order [dict.items()] iterates in.
    - [self.ranks] is a [defaultdict(list)]: indexing a missing key starts
      from the empty list, while [.get] of a missing key is [None].
    - numpy: [np.asarray(None, dtype=np.float64)] is the zero-dimensional
      array holding not-a-number, and [np.mean] of an empty array is [0/0].
    - Raising an exception is returning [Raise e] in the [result] monad. *)

From Stdlib Require Import ZArith QArith Lia Lqa.
From Stdlib Require Import Floats.SpecFloat.
From Stdlib Require Import Strings.String Strings.Ascii.
From Stdlib Require Import DecimalString DecimalZ.
From stdpp Require Import gmap strings list.

Local Open Scope Z_scope.

(** ** Python exceptions *)

Inductive exn : Type :=
| ShapeError (size_a size_b : nat)
    (* RuntimeError: The size of tensor a must match the size of tensor b
       at non-singleton dimension 0 *)
| ValueError (msg : string)
| KeyError.

Inductive result (A : Type) : Type :=
| Ok (a : A)
| Raise (e : exn).
Arguments Ok {A} a.
Arguments Raise {A} e.

#[global] Instance result_ret : MRet result := fun A a => Ok a.
#[global] Instance result_bind : MBind result := fun A B f m =>
  match m with
  | Ok a => f a
  | Raise e => Raise e
  end.
#[global] Instance result_fmap : FMap result := fun A B f m =>
  match m with
  | Ok a => Ok (f a)
  | Raise e => Raise e
  end.

Definition is_ValueError {A} (r : result A) : Prop :=
  ∃ msg, r = Raise (ValueError msg).

(** ** Computed floating-point values *)

Inductive fnum : Type :=
| FNaN
| FInf (neg : bool)
| FFin (q : Q).

Definition Qneg (q : Q) : bool := (Qnum q <? 0)%Z.

Definition float_of_Z (z : Z) : fnum := FFin (inject_Z z).

Definition fadd (x y : fnum) : fnum :=
  match x, y with
  | FNaN, _ | _, FNaN => FNaN
  | FInf s, FInf s' => if Bool.eqb s s' then FInf s else FNaN
  | FInf s, FFin _ | FFin _, FInf s => FInf s
  | FFin a, FFin b => FFin (Qred (a + b))
  end.

Definition fmul (x y : fnum) : fnum :=
  match x, y with
  | FNaN, _ | _, FNaN => FNaN
  | FInf s, FInf s' => FInf (xorb s s')
  | FInf s, FFin q | FFin q, FInf s =>
      if Qeq_bool q 0 then FNaN else FInf (xorb s (Qneg q))
  | FFin a, FFin b => FFin (Qred (a * b))
  end.

(** Division by a zero is IEEE division: [0/0] is not-a-number and [a/0] is
    an infinity of the sign of [a] (a rational zero carries no sign). *)
Definition fdiv (x y : fnum) : fnum :=
  match x, y with
  | FNaN, _ | _, FNaN => FNaN
  | FInf _, FInf _ => FNaN
  | FInf s, FFin b => FInf (xorb s (Qneg b))
  | FFin _, FInf _ => FFin 0
  | FFin a, FFin b =>
      if Qeq_bool b 0
      then (if Qeq_bool a 0 then FNaN else FInf (Qneg a))
      else FFin (Qred (a / b))
  end.

(** [x <= y]; every comparison with not-a-number is false. *)
Definition fleb (x y : fnum) : bool :=
  match x, y with
  | FNaN, _ | _, FNaN => false
  | FInf true, _ => true
  | _, FInf false => true
  | FInf false, _ => false
  | _, FInf true => false
  | FFin a, FFin b => Qle_bool a b
  end.

Definition is_nan (x : fnum) : bool :=
  match x with FNaN => true | _ => false end.

Definition half : fnum := FFin (1 # 2).
Definition fone : fnum := FFin 1.
Definition fzero : fnum := FFin 0.

(** ** Scores *)

Definition score : Type := spec_float.

(** [x > t] and [x >= t] of the source, and [x == t]. *)
Definition score_gt (x t : score) : bool := SFltb t x.
Definition score_ge (x t : score) : bool := SFleb t x.
Definition score_eq (x t : score) : bool := SFeqb x t.

(** [torch.isfinite] *)
Definition isfinite (x : score) : bool :=
  match x with
  | S754_zero _ | S754_finite _ _ _ => true
  | S754_infinity _ | S754_nan => false
  end.

Definition score_isnan (x : score) : bool :=
  match x with S754_nan => true | _ => false end.

(** The single-precision value of an integer (exact below [2^24]). *)
Definition f32 (z : Z) : score := binary_normalize 24 128 z 0 false.
Definition pos_inf : score := S754_infinity false.
Definition neg_inf : score := S754_infinity true.
Definition nan : score := S754_nan.

(** ** Tensors

    [true_score] has shape [(batch_size, 1)]: a list with one score per
    example.  [all_scores] has shape [(batch_size, num_entities)]: a list of
    rows.  A one-dimensional result tensor is a list. *)

Inductive tensor : Type :=
| IntTensor (l : list Z)
| FloatTensor (l : list fnum).

(** Broadcasting of a binary operation along dimension 0: the sizes must be
    equal, or one of them must be 1. *)
Definition broadcast2 {A B C} (f : A → B → C) (a : list A) (b : list B)
  : result (list C) :=
  if (length a =? length b)%nat then Ok (zip_with f a b)
  else match a, b with
       | [x], _ => Ok (f x <$> b)
       | _, [y] => Ok ((λ x, f x y) <$> a)
       | _, _ => Raise (ShapeError (length a) (length b))
       end.

(** [all_scores > true_score]: along dimension 1 the single entry of the
    true score is broadcast over the row. *)
Definition tensor_gt (all_scores : list (list score)) (true_score : list score)
  : result (list (list bool)) :=
  broadcast2 (λ row t, (λ x, score_gt x t) <$> row) all_scores true_score.

Definition tensor_ge (all_scores : list (list score)) (true_score : list score)
  : result (list (list bool)) :=
  broadcast2 (λ row t, (λ x, score_ge x t) <$> row) all_scores true_score.

Definition tensor_isfinite (all_scores : list (list score)) : list (list bool) :=
  (λ row : list score, isfinite <$> row) <$> all_scores.

Fixpoint count_true (l : list bool) : Z :=
  match l with
  | [] => 0
  | b :: l => (if b then 1 else 0) + count_true l
  end.

(** [.sum(dim=1)] of a boolean tensor *)
Definition sum_dim1 (m : list (list bool)) : list Z := count_true <$> m.

(** ** Rank kinds *)

Definition RANK_BEST : string := "best".
Definition RANK_WORST : string := "worst".
Definition RANK_AVERAGE : string := "avg".
(** A Python set; it is only iterated over and tested for membership, and
    neither depends on the order chosen here. *)
Definition RANK_TYPES : list string := [RANK_BEST; RANK_WORST; RANK_AVERAGE].
Definition RANK_AVERAGE_ADJUSTED : string := "adj".

(** ** [compute_rank_from_scores] *)

(** [torch.isfinite(all_scores).sum(dim=1).float()] *)
Definition number_of_options (all_scores : list (list score)) : list fnum :=
  float_of_Z <$> sum_dim1 (tensor_isfinite all_scores).

Definition compute_rank_from_scores
    (true_score : list score) (all_scores : list (list score))
  : result (list (string * tensor)) :=
  gt ← tensor_gt all_scores true_score;
  let best_rank := (λ c, c + 1) <$> sum_dim1 gt in
  ge ← tensor_ge all_scores true_score;
  let worst_rank := sum_dim1 ge in
  s ← broadcast2 Z.add best_rank worst_rank;
  let average_rank := (λ z, fmul (float_of_Z z) half) <$> s in
  let expected_rank :=
    (λ n, fmul half (fadd n fone)) <$> number_of_options all_scores in
  adjusted_average_rank ← broadcast2 fdiv average_rank expected_rank;
  mret [ (RANK_BEST, IntTensor best_rank);
         (RANK_WORST, IntTensor worst_rank);
         (RANK_AVERAGE, FloatTensor average_rank);
         (RANK_AVERAGE_ADJUSTED, FloatTensor adjusted_average_rank) ].

(** *** The average rank in binary32

    [average_rank = (best_rank + worst_rank).float() * 0.5]: the sum is an
    integer, [.float()] rounds it to the nearest binary32 number (ties to
    even), and the product with the scalar [0.5] is a binary32 product.
    [compute_rank_from_scores] above holds the value of this expression
    before rounding; this is the value that torch stores. *)





(** ** Python strings

    A character of a string stands for the Python character of the same
    code point, so the names covered are those over the code points below
    256. *)

Local Open Scope string_scope.
Local Open Scope list_scope.

(** [s.count(c)] for a one-character [c] *)
Fixpoint str_count (s : string) (c : ascii) : nat :=
  match s with
  | EmptyString => 0%nat
  | String a s' => ((if Ascii.eqb a c then 1 else 0) + str_count s' c)%nat
  end.

(** [s.split(c)] for a string with exactly one [c]: the parts before and
    after its first occurrence. *)
Fixpoint str_split1 (s : string) (c : ascii) : string * string :=
  match s with
  | EmptyString => (EmptyString, EmptyString)
  | String a s' =>
      if Ascii.eqb a c then (EmptyString, s')
      else let '(l, r) := str_split1 s' c in (String a l, r)
  end.

(** [s.startswith(p)] and [s[n:]] *)
Definition startswith (s p : string) : bool := String.prefix p s.

Fixpoint str_drop (n : nat) (s : string) : string :=
  match n, s with
  | O, _ => s
  | S n', String _ s' => str_drop n' s'
  | S _, EmptyString => EmptyString
  end.

(** [str(k)] of an integer: its decimal digits, with a minus sign. *)
Definition str_of_int (k : Z) : string := NilZero.string_of_int (Z.to_int k).

(** [int(s)]: surrounding whitespace is stripped, one sign is accepted,
    single underscores may separate digits.

    The whitespace that [int] strips from a [str] is the C whitespace
    (tab to carriage return, [0x09]-[0x0D], and the space [0x20]) and the
    Unicode blanks above [0x7F], which it first turns into spaces: below
    256 these are [0x85] and [0xA0].  The separators [0x1C]-[0x1F] are
    not stripped, although [str.isspace] holds of them:
    [int('\x1c1')] raises [ValueError]. *)
Definition is_space (c : ascii) : bool :=
  let n := nat_of_ascii c in
  ((9 <=? n)%nat && (n <=? 13)%nat) || (n =? 32)%nat
  || (n =? 133)%nat || (n =? 160)%nat.

Fixpoint lstrip (s : string) : string :=
  match s with
  | EmptyString => EmptyString
  | String c s' => if is_space c then lstrip s' else s
  end.

Fixpoint rstrip (s : string) : string :=
  match s with
  | EmptyString => EmptyString
  | String c s' =>
      match rstrip s' with
      | EmptyString => if is_space c then EmptyString else String c EmptyString
      | r => String c r
      end
  end.

Fixpoint drop_underscores (after_digit : bool) (s : string) : option string :=
  match s with
  | EmptyString => if after_digit then Some EmptyString else None
  | String c s' =>
      if Ascii.eqb c "_"
      then (if after_digit then drop_underscores false s' else None)
      else String c <$> drop_underscores true s'
  end.

(** [repr(s)]: the string between quotes, as error messages show it.  The
    quote is the apostrophe, unless the string holds an apostrophe and no
    double quote; the quote and the backslash are escaped, and so are the
    characters that are not printable. *)
Definition backslash : ascii := "092"%char.
Definition apostrophe : ascii := "039"%char.
Definition double_quote : ascii := "034"%char.

Definition hex_digit (n : nat) : ascii :=
  ascii_of_nat (if (n <? 10)%nat then 48 + n else 87 + n).

Definition repr_quote (s : string) : ascii :=
  if (0 <? str_count s apostrophe)%nat && (str_count s double_quote =? 0)%nat
  then double_quote else apostrophe.

Definition repr_char (quote c : ascii) : string :=
  let n := nat_of_ascii c in
  if Ascii.eqb c quote || Ascii.eqb c backslash
  then String backslash (String c EmptyString)
  else if (n =? 9)%nat then String backslash "t"
  else if (n =? 10)%nat then String backslash "n"
  else if (n =? 13)%nat then String backslash "r"
  else if (n <? 32)%nat || ((127 <=? n)%nat && (n <=? 160)%nat)
          || (n =? 173)%nat
  then String backslash
         (String "x" (String (hex_digit (n / 16))
                        (String (hex_digit (n mod 16)) EmptyString)))
  else String c EmptyString.

Fixpoint repr_body (quote : ascii) (s : string) : string :=
  match s with
  | EmptyString => EmptyString
  | String c s' => repr_char quote c +:+ repr_body quote s'
  end.

Definition py_repr (s : string) : string :=
  let quote := repr_quote s in
  String quote (repr_body quote s +:+ String quote EmptyString).

Definition int_literal_error (s : string) : exn :=
  ValueError ("invalid literal for int() with base 10: " +:+ py_repr s).

Definition py_int (s : string) : result Z :=
  let body := rstrip (lstrip s) in
  let '(neg, digits) :=
    match body with
    | String c rest =>
        if Ascii.eqb c "-" then (true, rest)
        else if Ascii.eqb c "+" then (false, rest)
        else (false, body)
    | EmptyString => (false, body)
    end in
  match drop_underscores false digits ≫= NilZero.uint_of_string with
  | Some u => Ok (if neg then - Z.of_uint u else Z.of_uint u)
  | None => Raise (int_literal_error s)
  end.

(** ** Dictionaries *)

(** [d[k]] *)
Definition getitem `{Countable K} {V} (d : gmap K V) (k : K) : result V :=
  match d !! k with
  | Some v => Ok v
  | None => Raise KeyError
  end.

(** A [for] loop whose body may raise. *)
Fixpoint for_each {A S} (body : S → A → result S) (l : list A) (s : S)
  : result S :=
  match l with
  | [] => Ok s
  | x :: l' => s' ← body s x; for_each body l' s'
  end.

(** ** [RankBasedMetricResults] *)

Record RankBasedMetricResults : Type := {
  mean_rank : gmap string fnum;
  mean_reciprocal_rank : gmap string fnum;
  hits_at_k : gmap string (gmap Z fnum);
  adjusted_mean_rank : fnum;
}.

Definition in_RANK_TYPES (rank_type : string) : bool :=
  existsb (String.eqb rank_type) RANK_TYPES.

(** The loop over the two prefixes of a hits-at-k designator. *)
Fixpoint hits_lookup (prefixes : list string) (name metric : string)
    (rank_type_hits_at_k : gmap Z fnum) : result fnum :=
  match prefixes with
  | [] => Raise (ValueError ("Invalid metric name: " +:+ name))
  | prefix :: rest =>
      if negb (startswith metric prefix)
      then hits_lookup rest name metric rank_type_hits_at_k
      else
        let k := str_drop (String.length prefix) metric in
        k ← (if String.eqb k "k" then Ok 10%Z else py_int k);
        getitem rank_type_hits_at_k k
  end.

Definition get_metric (self : RankBasedMetricResults) (name : string)
  : result fnum :=
  if String.eqb name "adjusted_mean_rank" then Ok (adjusted_mean_rank self)
  else
    let dot_count := str_count name "." in
    parts ← (if (dot_count =? 0)%nat then Ok ("avg", name)
             else if (dot_count =? 1)%nat then Ok (str_split1 name ".")
             else Raise (ValueError ("Malformed metric name: " +:+ name)));
    let '(rank_type, metric) := parts in
    if negb (in_RANK_TYPES rank_type)
    then Raise (ValueError ("Invalid rank type: " +:+ rank_type))
    else if String.eqb metric "mean_rank"
    then getitem (mean_rank self) rank_type
    else if String.eqb metric "mean_reciprocal_rank"
    then getitem (mean_reciprocal_rank self) rank_type
    else
      rank_type_hits_at_k ← getitem (hits_at_k self) rank_type;
      hits_lookup ["hits_at_"; "hits@"] name metric rank_type_hits_at_k.

(** The body of the loop over the rank kinds in [to_flat_dict]. *)
Definition to_flat_dict_body (self : RankBasedMetricResults)
    (r : gmap string fnum) (rank_type : string) : result (gmap string fnum) :=
  mr ← getitem (mean_rank self) rank_type;
  let r := <[rank_type +:+ ".mean_rank" := mr]> r in
  mrr ← getitem (mean_reciprocal_rank self) rank_type;
  let r := <[rank_type +:+ ".mean_reciprocal_rank" := mrr]> r in
  h ← getitem (hits_at_k self) rank_type;
  mret (foldl (λ (r : gmap string fnum) (kv : Z * fnum),
                 <[rank_type +:+ ".hits_at_" +:+ str_of_int kv.1 := kv.2]> r)
              r (map_to_list h)).

Definition to_flat_dict (self : RankBasedMetricResults)
  : result (gmap string fnum) :=
  let r : gmap string fnum :=
    {[ "avg.adjusted_mean_rank" := adjusted_mean_rank self ]} in
  for_each (to_flat_dict_body self) RANK_TYPES r.

(** ** [RankBasedEvaluator] *)

(** What [tensor.tolist()] yields: Python ints or Python floats. *)
Inductive pyval : Type :=
| PyInt (z : Z)
| PyFloat (x : fnum).

Definition tolist (t : tensor) : list pyval :=
  match t with
  | IntTensor l => PyInt <$> l
  | FloatTensor l => PyFloat <$> l
  end.

Record RankBasedEvaluator : Type := {
  filtered : bool;
  ks : list Z;
  ranks : gmap string (list pyval);   (* a [defaultdict(list)] *)
}.

Definition init (ks : option (list Z)) (filtered : bool) : RankBasedEvaluator :=
  {| filtered := filtered;
     ks := default [1; 3; 5; 10]%Z ks;
     ranks := ∅ |}.

(** [self.ranks[k].extend(v)]: a missing key starts from the empty list. *)
Definition extend (self : RankBasedEvaluator) (k : string) (v : list pyval)
  : RankBasedEvaluator :=
  {| filtered := filtered self;
     ks := ks self;
     ranks := <[k := default [] (ranks self !! k) ++ v]> (ranks self) |}.

Definition _update_ranks_ (self : RankBasedEvaluator)
    (true_scores : list score) (all_scores : list (list score))
  : result RankBasedEvaluator :=
  batch_ranks ← compute_rank_from_scores true_scores all_scores;
  mret (foldl (λ self kv, extend self kv.1 (tolist kv.2)) self batch_ranks).

(** A batch of (head, relation, tail) index triples. *)
Definition MappedTriples : Type := list (Z * Z * Z).

Definition process_tail_scores_ (self : RankBasedEvaluator)
    (hrt_batch : MappedTriples) (true_scores : list score)
    (scores : list (list score))
    (dense_positive_mask : option (list (list bool)))
  : result RankBasedEvaluator :=
  _update_ranks_ self true_scores scores.

Definition process_head_scores_ (self : RankBasedEvaluator)
    (hrt_batch : MappedTriples) (true_scores : list score)
    (scores : list (list score))
    (dense_positive_mask : option (list (list bool)))
  : result RankBasedEvaluator :=
  _update_ranks_ self true_scores scores.

(** *** numpy *)

Definition float_of_pyval (v : pyval) : fnum :=
  match v with
  | PyInt z => float_of_Z z
  | PyFloat x => x
  end.

(** [np.asarray(x, dtype=np.float64)] where [x] is what [dict.get]
    returned: [None] becomes the zero-dimensional array holding
    not-a-number, which elementwise operations and [np.mean] treat as an
    array of one element. *)
Definition np_asarray (x : option (list pyval)) : list fnum :=
  match x with
  | None => [FNaN]
  | Some l => float_of_pyval <$> l
  end.

(** [np.mean]: the sum divided by the number of elements; the mean of an
    empty array is [0/0]. *)
Definition np_mean (a : list fnum) : fnum :=
  fdiv (foldl fadd fzero a) (float_of_Z (Z.of_nat (length a))).

Definition np_reciprocal (a : list fnum) : list fnum := fdiv fone <$> a.

(** [np.mean(ranks <= k)]: the mean of a boolean array *)
Definition np_mean_le (a : list fnum) (k : Z) : fnum :=
  np_mean ((λ r, if fleb r (float_of_Z k) then fone else fzero) <$> a).

Definition finalize (self : RankBasedEvaluator)
  : RankBasedMetricResults * RankBasedEvaluator :=
  let '(mr, mrr, hits) :=
    foldl (λ (acc : gmap string fnum * gmap string fnum
                    * gmap string (gmap Z fnum)) rank_type,
             let '(mr, mrr, hits) := acc in
             let a := np_asarray (ranks self !! rank_type) in
             let hits :=
               <[rank_type :=
                   foldl (λ (d : gmap Z fnum) k, <[k := np_mean_le a k]> d)
                         ∅ (ks self)]> hits in
             let mr := <[rank_type := np_mean a]> mr in
             let mrr := <[rank_type := np_mean (np_reciprocal a)]> mrr in
             (mr, mrr, hits))
          (∅, ∅, ∅) RANK_TYPES in
  let adjusted_ranks := np_asarray (ranks self !! RANK_AVERAGE_ADJUSTED) in
  let amr := np_mean adjusted_ranks in
  ({| mean_rank := mr;
      mean_reciprocal_rank := mrr;
      hits_at_k := hits;
      adjusted_mean_rank := amr |},
   (* Clear buffers *)
   {| filtered := filtered self; ks := ks self; ranks := ∅ |}).


(** * Vocabulary of the properties *)

Local Open Scope Z_scope.

(** ** One example

    Every quantity of [compute_rank_from_scores] is computed row by row;
    these definitions name what the source computes for one example with
    true score [t] and candidate scores [row]. *)

Definition best_rank_row (t : score) (row : list score) : Z :=
  count_true ((λ x, score_gt x t) <$> row) + 1.

Definition worst_rank_row (t : score) (row : list score) : Z :=
  count_true ((λ x, score_ge x t) <$> row).

Definition n_finite_row (row : list score) : Z :=
  count_true (isfinite <$> row).

Definition average_rank_row (t : score) (row : list score) : fnum :=
  fmul (float_of_Z (best_rank_row t row + worst_rank_row t row)) half.

Definition expected_rank_row (row : list score) : fnum :=
  fmul half (fadd (float_of_Z (n_finite_row row)) fone).

Definition adjusted_rank_row (t : score) (row : list score) : fnum :=
  fdiv (average_rank_row t row) (expected_rank_row row).

Definition ranks_of_rows (rows : list (score * list score))
  : list (string * tensor) :=
  [ (RANK_BEST, IntTensor ((λ p, best_rank_row p.1 p.2) <$> rows));
    (RANK_WORST, IntTensor ((λ p, worst_rank_row p.1 p.2) <$> rows));
    (RANK_AVERAGE, FloatTensor ((λ p, average_rank_row p.1 p.2) <$> rows));
    (RANK_AVERAGE_ADJUSTED,
      FloatTensor ((λ p, adjusted_rank_row p.1 p.2) <$> rows)) ].

(** The examples that broadcasting pairs up. *)
Definition broadcast_rows (true_score : list score)
    (all_scores : list (list score)) : result (list (score * list score)) :=
  broadcast2 (λ row t, (t, row)) all_scores true_score.

(** The true triple's score appears among the candidates' scores. *)
Definition true_score_among (t : score) (row : list score) : Prop :=
  ∃ x, x ∈ row ∧ score_eq x t = true.

(** The four ranks of one example, and the dict made of the ranks of all
    examples. *)
Definition row_ranks (t : score) (row : list score) : Z * Z * fnum * fnum :=
  (best_rank_row t row, worst_rank_row t row,
   average_rank_row t row, adjusted_rank_row t row).

Definition ranks_dict (rs : list (Z * Z * fnum * fnum))
  : list (string * tensor) :=
  [ (RANK_BEST, IntTensor ((λ r, r.1.1.1) <$> rs));
    (RANK_WORST, IntTensor ((λ r, r.1.1.2) <$> rs));
    (RANK_AVERAGE, FloatTensor ((λ r, r.1.2) <$> rs));
    (RANK_AVERAGE_ADJUSTED, FloatTensor ((λ r, r.2) <$> rs)) ].

(** The number of candidates whose score equals the true score. *)
Definition ties (t : score) (row : list score) : Z :=
  count_true ((λ x, score_eq x t) <$> row).

(** ** Masking

    [d.get(k)] on the dict that [compute_rank_from_scores] returns, and a row
    without its not-a-number, or without its non-finite, candidates. *)
Fixpoint dict_get (d : list (string * tensor)) (k : string) : option tensor :=
  match d with
  | [] => None
  | (k', v) :: d' => if String.eqb k' k then Some v else dict_get d' k
  end.

Definition drop_nan (row : list score) : list score :=
  List.filter (λ x, negb (score_isnan x)) row.

Definition drop_nonfinite (row : list score) : list score :=
  List.filter isfinite row.

(** ** Batches

    The evaluation loop hands over batches, each for tail or for head
    prediction. *)
Inductive direction : Type := TailPrediction | HeadPrediction.

Record batch : Type := {
  batch_direction : direction;
  batch_hrt : MappedTriples;
  batch_true_scores : list score;
  batch_scores : list (list score);
  batch_mask : option (list (list bool));
}.

Definition process_batch (self : RankBasedEvaluator) (b : batch)
  : result RankBasedEvaluator :=
  match batch_direction b with
  | TailPrediction =>
      process_tail_scores_ self (batch_hrt b) (batch_true_scores b)
        (batch_scores b) (batch_mask b)
  | HeadPrediction =>
      process_head_scores_ self (batch_hrt b) (batch_true_scores b)
        (batch_scores b) (batch_mask b)
  end.

Definition process_batches (bs : list batch) (self : RankBasedEvaluator)
  : result RankBasedEvaluator :=
  for_each process_batch bs self.

(** The true scores and the scores of a batch have the same batch size. *)
Definition batch_aligned (b : batch) : Prop :=
  length (batch_true_scores b) = length (batch_scores b).

(** [torch.cat] of the true scores, and of the scores, of all batches *)
Definition cat_true_scores (bs : list batch) : list score :=
  concat (batch_true_scores <$> bs).
Definition cat_scores (bs : list batch) : list (list score) :=
  concat (batch_scores <$> bs).

(** What the evaluator holds for a rank kind; a missing key holds nothing. *)
Definition accumulated (self : RankBasedEvaluator) (k : string) : list pyval :=
  default [] (ranks self !! k).

(** What one batch with the examples [rows] adds for a rank kind. *)
Definition batch_values (k : string) (rows : list (score * list score))
  : list pyval :=
  from_option tolist [] (dict_get (ranks_of_rows rows) k).

(** The examples of all batches, in order. *)
Definition rows_of (bs : list batch) : list (score * list score) :=
  concat ((λ b, zip (batch_true_scores b) (batch_scores b)) <$> bs).

Definition example_batches : list batch :=
  [ {| batch_direction := TailPrediction; batch_hrt := [(0, 0, 1)];
       batch_true_scores := [f32 3];
       batch_scores := [[f32 3; f32 2; f32 1]]; batch_mask := None |};
    {| batch_direction := HeadPrediction; batch_hrt := [(0, 0, 1)];
       batch_true_scores := [f32 1];
       batch_scores := [[f32 1; f32 5; f32 0]]; batch_mask := None |} ].

(** ** Metric names *)

Definition is_digit (c : ascii) : bool :=
  let n := nat_of_ascii c in ((48 <=? n)%nat && (n <=? 57)%nat).

Fixpoint all_digits (s : string) : bool :=
  match s with
  | EmptyString => true
  | String c s' => is_digit c && all_digits s'
  end.

(** A hits-at-k designator: one of the two prefixes followed by the
    letter k or by an integer literal. *)
Definition hits_designator (metric : string) : Prop :=
  ∃ prefix k,
    (prefix = "hits_at_" ∨ prefix = "hits@")
    ∧ metric = prefix +:+ k
    ∧ (k = "k" ∨ ∃ z, py_int k = Ok z).

Definition valid_metric (metric : string) : Prop :=
  metric = "mean_rank" ∨ metric = "mean_reciprocal_rank"
  ∨ hits_designator metric.

(** The rank kind and the metric of a name with at most one dot. *)
Definition name_parts (name : string) : string * string :=
  if (str_count name "." =? 0)%nat then ("avg", name)
  else str_split1 name ".".

(** The hits dictionary has an entry for every rank kind, as every result
    of [finalize] has. *)
Definition hits_complete (self : RankBasedMetricResults) : Prop :=
  ∀ rank_type, rank_type ∈ RANK_TYPES → is_Some (hits_at_k self !! rank_type).

(** Where an entry of the flat dictionary comes from. *)
Definition flat_entry (self : RankBasedMetricResults) (key : string) (v : fnum)
  : Prop :=
  (key = "avg.adjusted_mean_rank" ∧ v = adjusted_mean_rank self)
  ∨ ∃ rank_type, rank_type ∈ RANK_TYPES
      ∧ ((key = rank_type +:+ ".mean_rank"
          ∧ mean_rank self !! rank_type = Some v)
         ∨ (key = rank_type +:+ ".mean_reciprocal_rank"
            ∧ mean_reciprocal_rank self !! rank_type = Some v)
         ∨ ∃ h k, key = rank_type +:+ ".hits_at_" +:+ str_of_int k
                ∧ hits_at_k self !! rank_type = Some h ∧ h !! k = Some v).

(** Every entry of a dictionary satisfies [P]. *)
Definition entries_satisfy (P : string → fnum → Prop) (r : gmap string fnum)
  : Prop :=
  ∀ key v, r !! key = Some v → P key v.

(** The results of the end-to-end example: one tail batch of two examples,
    finalized with [ks = (1,)]. *)
Definition example_results : RankBasedMetricResults :=
  match
    process_tail_scores_ (init (Some [1]) true) []
      [f32 3; f32 1] [[f32 3; f32 2; f32 1]; [f32 1; f32 5; f32 0]] None
  with
  | Ok e => (finalize e).1
  | Raise _ => (finalize (init (Some [1]) true)).1
  end.

(** ** Further vocabulary *)

(** The size that broadcasting gives to a dimension of sizes [a] and [b]
    that are equal or of which one is 1. *)
Definition broadcast_size (a b : nat) : nat :=
  if (a =? b)%nat then a else if (a =? 1)%nat then b else a.

(** A result has a mean rank, a mean reciprocal rank and a hits dictionary
    for a rank kind; and it has them for each of best, worst and avg. *)
Definition rank_kind_complete (self : RankBasedMetricResults)
    (rank_type : string) : Prop :=
  is_Some (mean_rank self !! rank_type)
  ∧ is_Some (mean_reciprocal_rank self !! rank_type)
  ∧ is_Some (hits_at_k self !! rank_type).

Definition results_complete (self : RankBasedMetricResults) : Prop :=
  ∀ rank_type, rank_type ∈ RANK_TYPES → rank_kind_complete self rank_type.

(** The entries that [to_flat_dict] writes for one rank kind. *)
Definition rank_kind_entry (self : RankBasedMetricResults)
    (rank_type key : string) (v : fnum) : Prop :=
  (key = rank_type +:+ ".mean_rank" ∧ mean_rank self !! rank_type = Some v)
  ∨ (key = rank_type +:+ ".mean_reciprocal_rank"
     ∧ mean_reciprocal_rank self !! rank_type = Some v)
  ∨ ∃ h k, key = rank_type +:+ ".hits_at_" +:+ str_of_int k
         ∧ hits_at_k self !! rank_type = Some h ∧ h !! k = Some v.

(** The sum of a list of rationals. *)
Fixpoint qsum (l : list Q) : Q :=
  match l with
  | [] => 0%Q
  | q :: l' => (q + qsum l')%Q
  end.

(** The number of values of an array that are at most [k]; comparing
    not-a-number gives false. *)
Definition count_le (a : list fnum) (k : Z) : Z :=
  count_true ((λ r, fleb r (float_of_Z k)) <$> a).

(** The evaluator of the end-to-end example before [finalize]. *)
Definition example_evaluator : RankBasedEvaluator :=
  match
    process_tail_scores_ (init (Some [1; 3]) true) []
      [f32 3; f32 1] [[f32 3; f32 2; f32 1]; [f32 1; f32 5; f32 0]] None
  with
  | Ok e => e
  | Raise _ => init (Some [1; 3]) true
  end.

(** In every example of the batch the true score appears among the
    candidates' scores. *)
Definition batch_has_true_scores (b : batch) : Prop :=
  Forall2 true_score_among (batch_true_scores b) (batch_scores b).

(** The ranks of one example as rationals. *)
Definition qbest (p : score * list score) : Q :=
  inject_Z (best_rank_row p.1 p.2).
Definition qworst (p : score * list score) : Q :=
  inject_Z (worst_rank_row p.1 p.2).
Definition qavg (p : score * list score) : Q :=
  Qred (inject_Z (best_rank_row p.1 p.2 + worst_rank_row p.1 p.2) * (1 # 2)).

(** The reciprocal of the best rank, and the adjusted rank, of one example
    as rationals. *)
Definition qrecip_best (p : score * list score) : Q :=
  Qred (1 / qbest p).
Definition qadj (p : score * list score) : Q :=
  match adjusted_rank_row p.1 p.2 with
  | FFin q => q
  | _ => 0%Q
  end.

(** ** [TriplesNumericLiteralsFactory.create_instances]

    From [src/poem/instance_creation_factories/triples_numeric_literals_factory.py].
    The body of the method is the single statement
    [self.create_instances()]: it calls itself, lets an exception of the
    call pass through, and otherwise falls off its end, returning [None].
    Python raises [RecursionError] in a call for which no stack frame is
    left; [frames] is the number of frames left. *)

Inductive call_outcome : Type :=
| ReturnsNone
| RaisesRecursionError.

Fixpoint create_instances (frames : nat) : call_outcome :=
  match frames with
  | O => RaisesRecursionError
  | S frames' =>
      match create_instances frames' with
      | ReturnsNone => ReturnsNone
      | RaisesRecursionError => RaisesRecursionError
      end
  end.

(** * Properties *)

(** The end-to-end example: two examples, then [finalize] with
    [ks = (1,)]. *)
Example end_to_end_ranks :
  compute_rank_from_scores [f32 3; f32 1]
    [[f32 3; f32 2; f32 1]; [f32 1; f32 5; f32 0]]
  = Ok [ (RANK_BEST, IntTensor [1; 2]);
         (RANK_WORST, IntTensor [1; 2]);
         (RANK_AVERAGE, FloatTensor [FFin 1; FFin 2]);
         (RANK_AVERAGE_ADJUSTED, FloatTensor [FFin (1 # 2); FFin 1]) ].
Proof. vm_compute. reflexivity. Qed.

Example end_to_end_metrics :
  ∃ e, process_tail_scores_ (init (Some [1%Z]) true) []
         [f32 3; f32 1] [[f32 3; f32 2; f32 1]; [f32 1; f32 5; f32 0]] None
       = Ok e
     ∧ get_metric (finalize e).1 "avg.mean_rank" = Ok (FFin (3 # 2))
     ∧ get_metric (finalize e).1 "avg.hits_at_1" = Ok (FFin (1 # 2)).
Proof.
  eexists. split; [vm_compute; reflexivity|].
  split; vm_compute; reflexivity.
Qed.

(** ** Broadcasting *)

Section Broadcast.
Context {A B C : Type} (f : A → B → C).

Lemma broadcast2_aligned (a : list A) (b : list B) :
  length a = length b → broadcast2 f a b = Ok (zip_with f a b).
Proof.
  intros Hlen. unfold broadcast2.
  by rewrite (proj2 (Nat.eqb_eq _ _) Hlen).
Qed.

Lemma broadcast2_left (x : A) (b : list B) :
  broadcast2 f [x] b = Ok (f x <$> b).
Proof.
  unfold broadcast2. destruct (Nat.eqb_spec (length [x]) (length b)) as [Hlen|]; [|done].
  destruct b as [|y [|??]]; simplify_eq/=. done.
Qed.

Lemma broadcast2_right (a : list A) (y : B) :
  broadcast2 f a [y] = Ok ((λ x, f x y) <$> a).
Proof.
  unfold broadcast2. destruct (Nat.eqb_spec (length a) (length [y])) as [Hlen|].
  - destruct a as [|x [|??]]; simplify_eq/=. done.
  - destruct a as [|x [|??]]; simpl in *; done.
Qed.

Lemma broadcast2_mismatch (a : list A) (b : list B) :
  length a ≠ length b → length a ≠ 1%nat → length b ≠ 1%nat →
  broadcast2 f a b = Raise (ShapeError (length a) (length b)).
Proof.
  intros Hne Ha Hb. unfold broadcast2.
  destruct (Nat.eqb_spec (length a) (length b)); [done|].
  destruct a as [|x [|??]], b as [|y [|??]]; simpl in *; done.
Qed.

Lemma broadcast2_cases (a : list A) (b : list B) :
  (length a = length b ∧ broadcast2 f a b = Ok (zip_with f a b))
  ∨ (∃ x, a = [x] ∧ length b ≠ 1%nat ∧ broadcast2 f a b = Ok (f x <$> b))
  ∨ (∃ y, b = [y] ∧ length a ≠ 1%nat
          ∧ broadcast2 f a b = Ok ((λ x, f x y) <$> a))
  ∨ (length a ≠ length b ∧ length a ≠ 1%nat ∧ length b ≠ 1%nat
     ∧ broadcast2 f a b = Raise (ShapeError (length a) (length b))).
Proof.
  destruct (decide (length a = length b)) as [Hlen|Hne].
  { left. eauto using broadcast2_aligned. }
  destruct (decide (length a = 1%nat)) as [Ha|Ha].
  { right; left. destruct a as [|x [|??]]; simplify_eq/=.
    exists x. split_and!; [done|congruence|apply broadcast2_left]. }
  destruct (decide (length b = 1%nat)) as [Hb|Hb].
  { right; right; left. destruct b as [|y [|??]]; simplify_eq/=.
    exists y. split_and!; [done|done|apply broadcast2_right]. }
  right; right; right. eauto using broadcast2_mismatch.
Qed.
End Broadcast.

Lemma compute_rank_from_scores_rows true_score all_scores :
  compute_rank_from_scores true_score all_scores
  = ranks_of_rows <$> broadcast_rows true_score all_scores.
Proof.
  unfold compute_rank_from_scores, broadcast_rows, tensor_gt, tensor_ge.
  destruct (broadcast2_cases (λ (row : list score) (t : score), (t, row))
              all_scores true_score)
    as [[Hlen E]|[(row & -> & Hts & E)|[(t & -> & Hall & E)|(Hne & Ha & Hb & E)]]];
    rewrite E; clear E.
  - rewrite !broadcast2_aligned by done. cbn.
    rewrite broadcast2_aligned
      by (unfold sum_dim1; rewrite !length_fmap, !length_zip_with; done).
    cbn. rewrite broadcast2_aligned; cycle 1.
    { unfold number_of_options, sum_dim1, tensor_isfinite.
      rewrite !length_fmap, !length_zip_with, !length_fmap, !length_zip_with. lia. }
    cbn. unfold ranks_of_rows, number_of_options, sum_dim1, tensor_isfinite.
    repeat f_equal.
    all: revert true_score Hlen;
      induction all_scores as [|row all_scores IH]; intros [|t ts] Hlen;
      simplify_eq/=; try done; f_equal; eauto.
  - rewrite !broadcast2_left. cbn.
    rewrite broadcast2_aligned by (unfold sum_dim1; rewrite !length_fmap; done).
    cbn. rewrite broadcast2_right. cbn.
    unfold ranks_of_rows, sum_dim1.
    repeat f_equal.
    all: clear Hts; induction true_score as [|t ts IH]; simpl; [done|];
      f_equal; apply IH.
  - rewrite !broadcast2_right. cbn.
    rewrite broadcast2_aligned by (unfold sum_dim1; rewrite !length_fmap; done).
    cbn. rewrite broadcast2_aligned; cycle 1.
    { unfold number_of_options, sum_dim1, tensor_isfinite.
      rewrite !length_fmap, length_zip_with, !length_fmap. lia. }
    cbn. unfold ranks_of_rows, number_of_options, sum_dim1, tensor_isfinite.
    repeat f_equal.
    all: clear Hall; induction all_scores as [|row rows IH]; simpl; [done|];
      f_equal; apply IH.
  - by rewrite !broadcast2_mismatch by done.
Qed.

(** ** Comparisons of scores *)

Lemma SFcompare_antisym (x y : spec_float) :
  SFcompare y x = CompOpp <$> SFcompare x y.
Proof.
  destruct x as [s1|s1| |s1 m1 e1], y as [s2|s2| |s2 m2 e2];
    try destruct s1; try destruct s2; try reflexivity.
  all: cbn; rewrite (Z.compare_antisym e1 e2);
    destruct (e1 ?= e2)%Z; cbn; try reflexivity;
    change (Pos.compare_cont Eq m2 m1) with (m2 ?= m1)%positive;
    change (Pos.compare_cont Eq m1 m2) with (m1 ?= m2)%positive;
    rewrite (Pos.compare_antisym m1 m2);
    destruct (m1 ?= m2)%positive; reflexivity.
Qed.

Lemma score_ge_split (x t : score) :
  score_ge x t = score_gt x t || score_eq x t.
Proof.
  unfold score_ge, score_gt, score_eq, SFleb, SFltb, SFeqb.
  rewrite (SFcompare_antisym t x).
  by destruct (SFcompare t x) as [[]|].
Qed.

Lemma score_gt_not_eq (x t : score) :
  score_gt x t = true → score_eq x t = false.
Proof.
  unfold score_gt, score_eq, SFltb, SFeqb.
  rewrite (SFcompare_antisym t x).
  by destruct (SFcompare t x) as [[]|].
Qed.

Lemma score_nan_gt (t : score) : score_gt nan t = false.
Proof. by destruct t as [| | |[]]. Qed.

Lemma score_nan_ge (t : score) : score_ge nan t = false.
Proof. by destruct t as [| | |[]]. Qed.

(** ** Counting *)

Lemma count_true_nonneg (l : list bool) : 0 ≤ count_true l.
Proof. induction l as [|[] l IH]; simpl; lia. Qed.

Lemma count_true_le_length (l : list bool) :
  count_true l ≤ Z.of_nat (length l).
Proof. induction l as [|[] l IH]; cbn [count_true length]; lia. Qed.

Lemma count_ge_split (t : score) (row : list score) :
  worst_rank_row t row
  = count_true ((λ x, score_gt x t) <$> row)
    + count_true ((λ x, score_eq x t) <$> row).
Proof.
  unfold worst_rank_row.
  induction row as [|x row IH]; [done|]. cbn [fmap list_fmap count_true].
  change (list_fmap _ _ ?f row) with (f <$> row). rewrite IH, score_ge_split.
  destruct (score_gt x t) eqn:Hgt; cbn.
  - rewrite (score_gt_not_eq _ _ Hgt). lia.
  - destruct (score_eq x t); lia.
Qed.

Lemma count_eq_pos (t : score) (row : list score) :
  (∃ x, x ∈ row ∧ score_eq x t = true) →
  1 ≤ count_true ((λ x, score_eq x t) <$> row).
Proof.
  intros (x & Hx & Heq). induction Hx as [x row|x y row Hx IH]; cbn.
  - rewrite Heq. pose proof (count_true_nonneg ((λ x, score_eq x t) <$> row)). lia.
  - specialize (IH Heq). destruct (score_eq y t); lia.
Qed.

Lemma best_rank_row_pos (t : score) (row : list score) :
  1 ≤ best_rank_row t row.
Proof.
  unfold best_rank_row.
  pose proof (count_true_nonneg ((λ x, score_gt x t) <$> row)). lia.
Qed.

Lemma best_le_worst_row (t : score) (row : list score) :
  (∃ x, x ∈ row ∧ score_eq x t = true) →
  best_rank_row t row ≤ worst_rank_row t row.
Proof.
  intros H%count_eq_pos. rewrite count_ge_split. unfold best_rank_row. lia.
Qed.

(** ** Aligned batches *)

Lemma broadcast_rows_aligned (ts : list score) (all : list (list score)) :
  length ts = length all →
  broadcast_rows ts all = Ok (zip ts all).
Proof.
  intros Hlen. unfold broadcast_rows. rewrite broadcast2_aligned by done.
  f_equal. revert all Hlen.
  induction ts as [|t ts IH]; intros [|row all] Hlen; simplify_eq/=; [done|].
  f_equal. by apply IH.
Qed.

Lemma compute_rank_from_scores_aligned (ts : list score) (all : list (list score)) :
  length ts = length all →
  compute_rank_from_scores ts all = Ok (ranks_of_rows (zip ts all)).
Proof.
  intros Hlen.
  by rewrite compute_rank_from_scores_rows, broadcast_rows_aligned.
Qed.


(** ** Rounding of the average rank

    An integer below [2^24] is a binary32 number, and so is its half:
    for such a sum of ranks the average rank is computed exactly. *)

















(** ** The ranks of one example *)

Section BroadcastMaps.
Context {A A' B C D : Type}.

Lemma broadcast2_fmap_l (f : A' → B → C) (g : A → A') (a : list A) (b : list B) :
  broadcast2 f (g <$> a) b = broadcast2 (λ x y, f (g x) y) a b.
Proof.
  unfold broadcast2. rewrite length_fmap.
  destruct (length a =? length b)%nat.
  - by rewrite zip_with_fmap_l.
  - destruct a as [|x [|??]], b as [|y [|??]]; cbn; try done;
      by rewrite <- list_fmap_compose.
Qed.

Lemma broadcast2_fmap_out (h : C → D) (f : A → B → C) (a : list A) (b : list B) :
  fmap (M:=list) h <$> broadcast2 f a b = broadcast2 (λ x y, h (f x y)) a b.
Proof.
  unfold broadcast2.
  destruct (length a =? length b)%nat; cbn.
  - f_equal. revert b. induction a as [|x a IH]; intros [|y b]; cbn; [done..|].
    f_equal. apply IH.
  - destruct a as [|x [|??]], b as [|y [|??]]; cbn; try done;
      by rewrite <- list_fmap_compose.
Qed.

Lemma broadcast2_ext (f f' : A → B → C) (a : list A) (b : list B) :
  (∀ x y, f x y = f' x y) → broadcast2 f a b = broadcast2 f' a b.
Proof.
  intros Hext. unfold broadcast2.
  destruct (length a =? length b)%nat.
  - f_equal. revert b. induction a as [|x a IH]; intros [|y b]; cbn; [done..|].
    by rewrite Hext, IH.
  - destruct a as [|x [|??]], b as [|y [|??]]; try done; f_equal;
      apply list_fmap_ext; auto.
Qed.
End BroadcastMaps.

Lemma ranks_of_rows_dict (rows : list (score * list score)) :
  ranks_of_rows rows = ranks_dict ((λ p, row_ranks p.1 p.2) <$> rows).
Proof.
  unfold ranks_of_rows, ranks_dict. by rewrite <- !list_fmap_compose.
Qed.

Lemma result_fmap_compose {X Y W} (f : X → Y) (g : Y → W) (r : result X) :
  g <$> (f <$> r) = (λ x, g (f x)) <$> r.
Proof. by destruct r. Qed.

Lemma result_fmap_ext {X Y} (f g : X → Y) (r : result X) :
  (∀ x, f x = g x) → f <$> r = g <$> r.
Proof. intros H. destruct r; cbn; [by rewrite H|done]. Qed.

(** [compute_rank_from_scores] computes [row_ranks] for every pair of a
    true score and a row that broadcasting puts together, and fails exactly
    when broadcasting does. *)
Lemma compute_rank_from_scores_spec (ts : list score) (all : list (list score)) :
  compute_rank_from_scores ts all
  = ranks_dict <$> broadcast2 (λ row t, row_ranks t row) all ts.
Proof.
  rewrite compute_rank_from_scores_rows. unfold broadcast_rows.
  rewrite <- (broadcast2_fmap_out (λ p, row_ranks p.1 p.2)
                (λ (row : list score) (t : score), (t, row))).
  rewrite result_fmap_compose. apply result_fmap_ext, ranks_of_rows_dict.
Qed.

Lemma lookup_ranks_aligned {X} (f : score * list score → X)
    (ts : list score) (all : list (list score)) (i : nat) t row :
  ts !! i = Some t → all !! i = Some row →
  (f <$> zip ts all) !! i = Some (f (t, row)).
Proof.
  intros Ht Hrow. rewrite list_lookup_fmap.
  by rewrite (proj2 (lookup_zip_Some ts all i t row) (conj Ht Hrow)).
Qed.

(** ** Ties *)

Lemma count_gt_none (t : score) (row : list score) :
  (∀ x, x ∈ row → score_gt x t = false) →
  count_true ((λ x, score_gt x t) <$> row) = 0.
Proof.
  induction row as [|x row IH]; intros Hmax; [done|]. cbn.
  rewrite (Hmax x) by constructor.
  change (list_fmap _ _ ?f row) with (f <$> row).
  rewrite IH; [done|]. intros y Hy. apply Hmax. by constructor.
Qed.

(** C9: in an example where no candidate scores higher than the true
    triple and exactly [m] candidates tie with it, [worst - best = m - 1]. *)
Theorem tie_handling (true_score : list score) (all_scores : list (list score))
    (i : nat) (t : score) (row : list score) (m : Z) :
  length true_score = length all_scores →
  true_score !! i = Some t → all_scores !! i = Some row →
  (∀ x, x ∈ row → score_gt x t = false) →
  ties t row = m →
  ∃ best worst avg adj,
    compute_rank_from_scores true_score all_scores
    = Ok [ (RANK_BEST, IntTensor best); (RANK_WORST, IntTensor worst);
           (RANK_AVERAGE, FloatTensor avg);
           (RANK_AVERAGE_ADJUSTED, FloatTensor adj) ]
    ∧ ∃ b w, best !! i = Some b ∧ worst !! i = Some w ∧ w - b = m - 1.
Proof.
  intros Hlen Ht Hrow Hmax Hm.
  rewrite compute_rank_from_scores_aligned by done.
  unfold ranks_of_rows. do 4 eexists. split; [reflexivity|].
  exists (best_rank_row t row), (worst_rank_row t row).
  split; [by apply (lookup_ranks_aligned (λ p, best_rank_row p.1 p.2))|].
  split; [by apply (lookup_ranks_aligned (λ p, worst_rank_row p.1 p.2))|].
  rewrite count_ge_split. unfold best_rank_row.
  rewrite count_gt_none by done. unfold ties in Hm. lia.
Qed.

Lemma tie_handling_witness :
  ∃ best worst avg adj,
    compute_rank_from_scores [f32 1; f32 7]
      [[f32 1; f32 0]; [f32 7; f32 3; f32 7; nan; f32 7]]
    = Ok [ (RANK_BEST, IntTensor best); (RANK_WORST, IntTensor worst);
           (RANK_AVERAGE, FloatTensor avg);
           (RANK_AVERAGE_ADJUSTED, FloatTensor adj) ]
    ∧ ∃ b w, best !! 1%nat = Some b ∧ worst !! 1%nat = Some w ∧ w - b = 3 - 1.
Proof.
  apply (tie_handling [f32 1; f32 7]
           [[f32 1; f32 0]; [f32 7; f32 3; f32 7; nan; f32 7]]
           1 (f32 7) [f32 7; f32 3; f32 7; nan; f32 7] 3);
    [reflexivity|reflexivity|reflexivity| |reflexivity].
  intros x Hx. repeat (apply elem_of_cons in Hx as [->|Hx]; [reflexivity|]).
  by apply elem_of_nil in Hx.
Defined.

(** ** Masked candidates *)

Lemma count_true_filter (p q : score → bool) (row : list score) :
  (∀ x, q x = false → p x = false) →
  count_true (p <$> List.filter q row) = count_true (p <$> row).
Proof.
  intros Hpq. induction row as [|x row IH]; [done|]. cbn.
  change (list_fmap _ _ ?f row) with (f <$> row).
  destruct (q x) eqn:Hq; cbn.
  - change (list_fmap _ _ ?f ?l) with (f <$> l). by rewrite IH.
  - by rewrite IH, (Hpq x Hq).
Qed.

Lemma not_nan_false (x : score) : negb (score_isnan x) = false → x = nan.
Proof. by destruct x. Qed.

Lemma row_ranks_drop_nan (t : score) (row : list score) :
  row_ranks t (drop_nan row) = row_ranks t row.
Proof.
  assert (best_rank_row t (drop_nan row) = best_rank_row t row) as Hb.
  { unfold best_rank_row, drop_nan. rewrite count_true_filter; [done|].
    intros x ->%not_nan_false. apply score_nan_gt. }
  assert (worst_rank_row t (drop_nan row) = worst_rank_row t row) as Hw.
  { unfold worst_rank_row, drop_nan. rewrite count_true_filter; [done|].
    intros x ->%not_nan_false. apply score_nan_ge. }
  assert (n_finite_row (drop_nan row) = n_finite_row row) as Hn.
  { unfold n_finite_row, drop_nan. rewrite count_true_filter; [done|].
    by intros x ->%not_nan_false. }
  unfold row_ranks, adjusted_rank_row, expected_rank_row, average_rank_row.
  by rewrite Hb, Hw, Hn.
Qed.

(** C2, as stated, fails: a candidate with score plus infinity is not
    finite, yet it counts as scored better than the true triple. *)
Lemma infinite_entry_counts :
  isfinite pos_inf = false
  ∧ compute_rank_from_scores [f32 5] [[f32 5; pos_inf]]
    = Ok [ (RANK_BEST, IntTensor [2]); (RANK_WORST, IntTensor [2]);
           (RANK_AVERAGE, FloatTensor [FFin 2]);
           (RANK_AVERAGE_ADJUSTED, FloatTensor [FFin 2]) ]
  ∧ compute_rank_from_scores [f32 5] [drop_nonfinite [f32 5; pos_inf]]
    = Ok [ (RANK_BEST, IntTensor [1]); (RANK_WORST, IntTensor [1]);
           (RANK_AVERAGE, FloatTensor [FFin 1]);
           (RANK_AVERAGE_ADJUSTED, FloatTensor [FFin 1]) ]
  ∧ (λ d, dict_get d RANK_BEST)
      <$> compute_rank_from_scores [f32 5] [[f32 5; pos_inf]]
    ≠ (λ d, dict_get d RANK_BEST)
      <$> compute_rank_from_scores [f32 5] [drop_nonfinite [f32 5; pos_inf]].
Proof.
  split; [reflexivity|]. split; [vm_compute; reflexivity|].
  split; [vm_compute; reflexivity|]. vm_compute. discriminate.
Qed.

(** C2, amended: candidates whose score is not-a-number never affect any
    computed rank nor the number of options; no candidate with a
    non-finite score is counted in the number of options; and for true
    score 5 and candidate scores [5, 7, NaN, 3] the best and worst ranks
    are 2 and the number of options is 3. *)
Theorem nan_masking :
  (∀ true_score all_scores,
     compute_rank_from_scores true_score (drop_nan <$> all_scores)
     = compute_rank_from_scores true_score all_scores)
  ∧ (∀ all_scores,
       number_of_options (drop_nan <$> all_scores)
       = number_of_options all_scores)
  ∧ (∀ all_scores,
       number_of_options (drop_nonfinite <$> all_scores)
       = number_of_options all_scores)
  ∧ compute_rank_from_scores [f32 5] [[f32 5; f32 7; nan; f32 3]]
    = Ok [ (RANK_BEST, IntTensor [2]); (RANK_WORST, IntTensor [2]);
           (RANK_AVERAGE, FloatTensor [FFin 2]);
           (RANK_AVERAGE_ADJUSTED, FloatTensor [FFin 1]) ]
  ∧ number_of_options [[f32 5; f32 7; nan; f32 3]] = [FFin 3].
Proof.
  split_and!.
  - intros ts all. rewrite !compute_rank_from_scores_spec, broadcast2_fmap_l.
    f_equal. apply broadcast2_ext. intros row t. apply row_ranks_drop_nan.
  - intros all. unfold number_of_options, sum_dim1, tensor_isfinite.
    rewrite <- !list_fmap_compose. apply list_fmap_ext. intros _ row _. cbn.
    f_equal. unfold drop_nan. apply count_true_filter.
    by intros x ->%not_nan_false.
  - intros all. unfold number_of_options, sum_dim1, tensor_isfinite.
    rewrite <- !list_fmap_compose. apply list_fmap_ext. intros _ row _. cbn.
    f_equal. unfold drop_nonfinite. by apply count_true_filter.
  - vm_compute. reflexivity.
  - vm_compute. reflexivity.
Qed.

(** ** Rows without a finite candidate *)

(** C6, as stated, fails: with no finite candidate the expected rank is
    [0.5 * (0 + 1)], not zero, and the adjusted rank is a number. *)
Lemma adjusted_rank_not_nan :
  n_finite_row [nan; nan] = 0
  ∧ compute_rank_from_scores [f32 5] [[nan; nan]]
    = Ok [ (RANK_BEST, IntTensor [1]); (RANK_WORST, IntTensor [0]);
           (RANK_AVERAGE, FloatTensor [FFin (1 # 2)]);
           (RANK_AVERAGE_ADJUSTED, FloatTensor [FFin 1]) ]
  ∧ is_nan (FFin 1) = false.
Proof. split_and!; vm_compute; reflexivity. Qed.

Lemma n_finite_row_zero (row : list score) :
  Forall (λ x, isfinite x = false) row → n_finite_row row = 0.
Proof.
  unfold n_finite_row. induction 1 as [|x row Hx _ IH]; [done|].
  cbn. rewrite Hx. apply IH.
Qed.

Lemma adjusted_rank_row_zero_finite (t : score) (row : list score) :
  n_finite_row row = 0 →
  ∃ q, adjusted_rank_row t row = FFin q
     ∧ (q == inject_Z (best_rank_row t row + worst_rank_row t row))%Q.
Proof.
  intros Hn. unfold adjusted_rank_row, expected_rank_row. rewrite Hn.
  change (fmul half (fadd (float_of_Z 0) fone)) with (FFin (1 # 2)).
  unfold average_rank_row, float_of_Z, half, fmul, fdiv.
  change (Qeq_bool (1 # 2) 0) with false. cbv iota.
  eexists; split; [reflexivity|].
  rewrite !Qred_correct. field.
Qed.

(** C6, amended: for a row without a finite candidate the adjusted rank
    is the average rank divided by one half, that is the finite number
    [best + worst]; it is not not-a-number, and no error is raised. *)
Theorem adjusted_rank_zero_finite
    (true_score : list score) (all_scores : list (list score))
    (i : nat) (t : score) (row : list score) :
  length true_score = length all_scores →
  true_score !! i = Some t → all_scores !! i = Some row →
  Forall (λ x, isfinite x = false) row →
  ∃ best worst avg adj,
    compute_rank_from_scores true_score all_scores
    = Ok [ (RANK_BEST, IntTensor best); (RANK_WORST, IntTensor worst);
           (RANK_AVERAGE, FloatTensor avg);
           (RANK_AVERAGE_ADJUSTED, FloatTensor adj) ]
    ∧ ∃ b w q, best !! i = Some b ∧ worst !! i = Some w
             ∧ adj !! i = Some (FFin q) ∧ (q == inject_Z (b + w))%Q.
Proof.
  intros Hlen Ht Hrow Hnone.
  rewrite compute_rank_from_scores_aligned by done.
  unfold ranks_of_rows. do 4 eexists. split; [reflexivity|].
  destruct (adjusted_rank_row_zero_finite t row) as (q & Hadj & Hq);
    [by apply n_finite_row_zero|].
  exists (best_rank_row t row), (worst_rank_row t row), q.
  split; [by apply (lookup_ranks_aligned (λ p, best_rank_row p.1 p.2))|].
  split; [by apply (lookup_ranks_aligned (λ p, worst_rank_row p.1 p.2))|].
  split; [|done].
  rewrite <- Hadj. by apply (lookup_ranks_aligned (λ p, adjusted_rank_row p.1 p.2)).
Qed.

Lemma adjusted_rank_zero_finite_witness :
  ∃ best worst avg adj,
    compute_rank_from_scores [f32 5] [[nan; pos_inf]]
    = Ok [ (RANK_BEST, IntTensor best); (RANK_WORST, IntTensor worst);
           (RANK_AVERAGE, FloatTensor avg);
           (RANK_AVERAGE_ADJUSTED, FloatTensor adj) ]
    ∧ ∃ b w q, best !! 0%nat = Some b ∧ worst !! 0%nat = Some w
             ∧ adj !! 0%nat = Some (FFin q) ∧ (q == inject_Z (b + w))%Q.
Proof.
  apply (adjusted_rank_zero_finite [f32 5] [[nan; pos_inf]] 0 (f32 5)
           [nan; pos_inf]); [reflexivity|reflexivity|reflexivity|].
  repeat constructor.
Defined.

(** ** The evaluator *)

(** C10: the mapped triples and the dense positive mask are ignored; the
    evaluator after processing a batch, and so every later result of
    [finalize], depends on the true scores and the scores only. *)
Theorem hrt_batch_and_mask_ignored (self : RankBasedEvaluator)
    (hrt_batch hrt_batch' : MappedTriples)
    (true_scores : list score) (scores : list (list score))
    (dense_positive_mask dense_positive_mask' : option (list (list bool))) :
  process_tail_scores_ self hrt_batch true_scores scores dense_positive_mask
  = process_tail_scores_ self hrt_batch' true_scores scores dense_positive_mask'
  ∧ process_head_scores_ self hrt_batch true_scores scores dense_positive_mask
    = process_head_scores_ self hrt_batch' true_scores scores dense_positive_mask'
  ∧ finalize
      <$> process_tail_scores_ self hrt_batch true_scores scores dense_positive_mask
    = finalize
      <$> process_tail_scores_ self hrt_batch' true_scores scores dense_positive_mask'
  ∧ finalize
      <$> process_head_scores_ self hrt_batch true_scores scores dense_positive_mask
    = finalize
      <$> process_head_scores_ self hrt_batch' true_scores scores dense_positive_mask'.
Proof. unfold process_tail_scores_, process_head_scores_. by split_and!. Qed.

(** C8, as stated, fails: a single true score is broadcast over a batch of
    two rows, and ranks are accumulated for both. *)
Lemma mismatch_broadcasts :
  length [f32 5] ≠ length [[f32 5; f32 7]; [f32 9; f32 5]]
  ∧ ∃ e, process_tail_scores_ (init None true) [] [f32 5]
           [[f32 5; f32 7]; [f32 9; f32 5]] None = Ok e
       ∧ ranks e !! RANK_BEST = Some [PyInt 2; PyInt 2]
       ∧ ranks e !! RANK_WORST = Some [PyInt 2; PyInt 2].
Proof.
  split; [discriminate|]. eexists. split; [vm_compute; reflexivity|].
  split; vm_compute; reflexivity.
Qed.

Lemma _update_ranks__mismatch (self : RankBasedEvaluator)
    (true_scores : list score) (all_scores : list (list score)) :
  length true_scores ≠ length all_scores →
  length true_scores ≠ 1%nat → length all_scores ≠ 1%nat →
  _update_ranks_ self true_scores all_scores
  = Raise (ShapeError (length all_scores) (length true_scores)).
Proof.
  intros Hne Ht Ha. unfold _update_ranks_.
  rewrite compute_rank_from_scores_spec, broadcast2_mismatch by done. done.
Qed.

(** C8, amended: when the batch dimensions of the true scores and of the
    scores disagree and neither of them is 1, processing a tail or a head
    batch raises the shape error and returns no evaluator. *)
Theorem shape_mismatch_raises (self : RankBasedEvaluator)
    (hrt_batch : MappedTriples)
    (true_scores : list score) (scores : list (list score))
    (dense_positive_mask : option (list (list bool))) :
  length true_scores ≠ length scores →
  length true_scores ≠ 1%nat → length scores ≠ 1%nat →
  process_tail_scores_ self hrt_batch true_scores scores dense_positive_mask
  = Raise (ShapeError (length scores) (length true_scores))
  ∧ process_head_scores_ self hrt_batch true_scores scores dense_positive_mask
    = Raise (ShapeError (length scores) (length true_scores)).
Proof.
  intros. unfold process_tail_scores_, process_head_scores_.
  by rewrite _update_ranks__mismatch.
Qed.

Lemma shape_mismatch_raises_witness :
  process_tail_scores_ (init None true) [] [f32 5; f32 1]
    [[f32 5; f32 7]; [f32 3; f32 9]; [f32 1; f32 1]] None
  = Raise (ShapeError 3 2)
  ∧ process_head_scores_ (init None true) [] [f32 5; f32 1]
      [[f32 5; f32 7]; [f32 3; f32 9]; [f32 1; f32 1]] None
    = Raise (ShapeError 3 2).
Proof.
  apply (shape_mismatch_raises (init None true) [] [f32 5; f32 1]
           [[f32 5; f32 7]; [f32 3; f32 9]; [f32 1; f32 1]] None);
    discriminate.
Defined.

(** ** Finalizing twice *)

Lemma foldl_insert_lookup {V} (g : Z → V) (l : list Z) (d : gmap Z V) (k : Z) :
  foldl (λ (d : gmap Z V) k, <[k := g k]> d) d l !! k
  = if decide (k ∈ l) then Some (g k) else d !! k.
Proof.
  revert d. induction l as [|x l IH]; intros d; cbn.
  - by rewrite decide_False by apply not_elem_of_nil.
  - rewrite IH. destruct (decide (k ∈ l)) as [Hin|Hnin].
    + rewrite decide_True by (by constructor). done.
    + destruct (decide (k = x)) as [->|Hne].
      * rewrite decide_True by constructor. by rewrite lookup_insert_eq.
      * rewrite decide_False by (rewrite elem_of_cons; tauto).
        by rewrite lookup_insert_ne.
Qed.

Lemma finalize_clears (self : RankBasedEvaluator) :
  ranks (finalize self).2 = ∅ ∧ ks (finalize self).2 = ks self.
Proof. done. Qed.

(** C3, as stated, fails: after a second [finalize] the hits-at-10 entry is
    the number zero, which is not not-a-number. *)
Lemma second_finalize_hits_zero :
  let e := (finalize (init None true)).2 in
  get_metric (finalize e).1 "avg.hits_at_10" = Ok (FFin 0)
  ∧ is_nan (FFin 0) = false.
Proof. split; vm_compute; reflexivity. Qed.

(** C3, amended: a second [finalize] without processing in between returns
    (it cannot raise) and yields not-a-number for the mean rank and the
    mean reciprocal rank of every rank kind and for the adjusted mean rank,
    and the number zero for every hits-at-k entry. *)
Theorem second_finalize (self : RankBasedEvaluator) :
  let r := (finalize (finalize self).2).1 in
  (∀ rank_type, rank_type ∈ RANK_TYPES →
     mean_rank r !! rank_type = Some FNaN
     ∧ mean_reciprocal_rank r !! rank_type = Some FNaN
     ∧ ∃ h, hits_at_k r !! rank_type = Some h
          ∧ ∀ k, h !! k = if decide (k ∈ ks self) then Some (FFin 0) else None)
  ∧ adjusted_mean_rank r = FNaN.
Proof.
  cbn zeta. destruct (finalize_clears self) as [Hranks Hks].
  destruct (finalize self) as [r1 [f1 ks1 ranks1]]. cbn in Hranks, Hks.
  subst ranks1 ks1. cbn [snd]. split; [|reflexivity].
  intros rank_type Hin. unfold RANK_TYPES in Hin.
  repeat (apply elem_of_cons in Hin as [->|Hin]);
    [..|by apply elem_of_nil in Hin].
  all: split; [reflexivity|]; split; [reflexivity|].
  all: eexists; split; [reflexivity|].
  all: intros k; rewrite foldl_insert_lookup; cbn [ks ranks];
    rewrite lookup_empty; destruct (decide (k ∈ ks self)); reflexivity.
Qed.

(** ** Accumulating over batches *)

Lemma accumulated_extend (self : RankBasedEvaluator) (k k' : string)
    (v : list pyval) :
  accumulated (extend self k v) k'
  = if String.eqb k k' then accumulated self k ++ v else accumulated self k'.
Proof.
  unfold accumulated, extend; cbn.
  destruct (String.eqb_spec k k') as [<-|Hne].
  - by rewrite lookup_insert_eq.
  - by rewrite lookup_insert_ne.
Qed.

Lemma _update_ranks__aligned (self : RankBasedEvaluator)
    (ts : list score) (all : list (list score)) :
  length ts = length all →
  ∃ e, _update_ranks_ self ts all = Ok e
     ∧ ks e = ks self
     ∧ ∀ k, accumulated e k = accumulated self k ++ batch_values k (zip ts all).
Proof.
  intros Hlen. unfold _update_ranks_.
  rewrite compute_rank_from_scores_aligned by done.
  eexists. split; [reflexivity|]. split; [reflexivity|].
  intros k. unfold batch_values, ranks_of_rows. cbn [foldl fst snd dict_get].
  rewrite !accumulated_extend.
  destruct (String.eqb_spec RANK_BEST k) as [<-|?]; [done|].
  destruct (String.eqb_spec RANK_WORST k) as [<-|?]; [done|].
  destruct (String.eqb_spec RANK_AVERAGE k) as [<-|?]; [done|].
  destruct (String.eqb_spec RANK_AVERAGE_ADJUSTED k) as [<-|?]; [done|].
  cbn. by rewrite app_nil_r.
Qed.

Lemma batch_values_app (k : string) (rows1 rows2 : list (score * list score)) :
  batch_values k (rows1 ++ rows2) = batch_values k rows1 ++ batch_values k rows2.
Proof.
  unfold batch_values, ranks_of_rows. cbn [dict_get].
  repeat (destruct (String.eqb _ k); [cbn; by rewrite !fmap_app|]).
  done.
Qed.

Lemma batch_values_nil (k : string) : batch_values k [] = [].
Proof.
  unfold batch_values, ranks_of_rows. cbn [dict_get].
  by repeat (destruct (String.eqb _ k); [done|]).
Qed.

Lemma zip_cat (bs : list batch) :
  Forall batch_aligned bs →
  zip (cat_true_scores bs) (cat_scores bs) = rows_of bs
  ∧ length (cat_true_scores bs) = length (cat_scores bs).
Proof.
  unfold cat_true_scores, cat_scores, rows_of.
  induction 1 as [|b bs Hb _ [IH IHlen]]; [done|]. cbn.
  rewrite zip_with_app by done. rewrite IH, !length_app, IHlen.
  split; [done|]. by rewrite Hb.
Qed.

Lemma process_batches_accumulated (bs : list batch) :
  Forall batch_aligned bs →
  ∀ self, ∃ e, process_batches bs self = Ok e
             ∧ ks e = ks self
             ∧ ∀ k, accumulated e k
                    = accumulated self k ++ batch_values k (rows_of bs).
Proof.
  induction 1 as [|b bs Hb _ IH]; intros self.
  - exists self. split_and!; [done..|]. intros k.
    change (rows_of []) with (@nil (score * list score)).
    by rewrite batch_values_nil, app_nil_r.
  - destruct (_update_ranks__aligned self _ _ Hb) as (e1 & He1 & Hks1 & Hacc1).
    destruct (IH e1) as (e & He & Hks & Hacc).
    exists e. split_and!.
    + unfold process_batches. cbn [for_each].
      assert (process_batch self b = Ok e1) as ->
        by (unfold process_batch; by destruct (batch_direction b)).
      exact He.
    + congruence.
    + intros k. rewrite Hacc, Hacc1.
      change (rows_of (b :: bs))
        with (zip (batch_true_scores b) (batch_scores b) ++ rows_of bs).
      by rewrite batch_values_app, app_assoc.
Qed.

Lemma np_mean_asarray (o : option (list pyval)) :
  np_mean (np_asarray o) = np_mean (float_of_pyval <$> default [] o).
Proof. by destruct o. Qed.

Lemma finalize_mean_rank (self : RankBasedEvaluator) :
  mean_rank (finalize self).1
  = <[RANK_AVERAGE :=
        np_mean (float_of_pyval <$> accumulated self RANK_AVERAGE)]>
      (<[RANK_WORST :=
           np_mean (float_of_pyval <$> accumulated self RANK_WORST)]>
         (<[RANK_BEST :=
              np_mean (float_of_pyval <$> accumulated self RANK_BEST)]> ∅)).
Proof. unfold accumulated. by rewrite <- !np_mean_asarray. Qed.

(** C7: processing aligned batches one after the other and finalizing
    gives the same mean rank, for every rank kind, as processing their
    concatenation as one batch and finalizing. *)
Theorem accumulate_then_finalize (self : RankBasedEvaluator)
    (bs : list batch) (d : direction) (hrt : MappedTriples)
    (mask : option (list (list bool))) :
  Forall batch_aligned bs →
  ∃ e1 e2,
    process_batches bs self = Ok e1
    ∧ process_batch self
        {| batch_direction := d; batch_hrt := hrt;
           batch_true_scores := cat_true_scores bs;
           batch_scores := cat_scores bs; batch_mask := mask |} = Ok e2
    ∧ mean_rank (finalize e1).1 = mean_rank (finalize e2).1.
Proof.
  intros Hbs.
  destruct (process_batches_accumulated bs Hbs self) as (e1 & He1 & _ & Hacc1).
  destruct (zip_cat bs Hbs) as [Hzip Hlen].
  destruct (_update_ranks__aligned self _ _ Hlen) as (e2 & He2 & _ & Hacc2).
  exists e1, e2. split_and!.
  - exact He1.
  - unfold process_batch; by destruct d.
  - rewrite !finalize_mean_rank, !Hacc1, !Hacc2. by rewrite Hzip.
Qed.

Lemma accumulate_then_finalize_witness :
  ∃ e1 e2,
    process_batches example_batches (init None true) = Ok e1
    ∧ process_batch (init None true)
        {| batch_direction := TailPrediction; batch_hrt := [];
           batch_true_scores := cat_true_scores example_batches;
           batch_scores := cat_scores example_batches;
           batch_mask := None |} = Ok e2
    ∧ mean_rank (finalize e1).1 = mean_rank (finalize e2).1.
Proof.
  apply (accumulate_then_finalize (init None true) example_batches
           TailPrediction [] None).
  repeat constructor.
Defined.

(** ** Decimal strings *)

Lemma is_digit_facts (c : ascii) :
  is_digit c = true →
  is_space c = false ∧ Ascii.eqb c "_" = false ∧ Ascii.eqb c "-" = false
  ∧ Ascii.eqb c "+" = false ∧ Ascii.eqb c "." = false
  ∧ Ascii.eqb c "k" = false.
Proof.
  destruct c as [[] [] [] [] [] [] [] []]; vm_compute; intros H;
    try discriminate H; repeat split.
Qed.

Lemma string_of_uint_digits (d : Decimal.uint) :
  all_digits (NilEmpty.string_of_uint d) = true.
Proof. induction d; cbn; auto. Qed.

Lemma string_of_uint_nonempty (d : Decimal.uint) :
  d ≠ Decimal.Nil → NilEmpty.string_of_uint d ≠ EmptyString.
Proof. by destruct d. Qed.

Lemma lstrip_digits (s : string) : all_digits s = true → lstrip s = s.
Proof.
  destruct s as [|c s']; [done|]. cbn. intros [Hc _]%andb_prop.
  by destruct (is_digit_facts c Hc) as (-> & _).
Qed.

Lemma rstrip_digits (s : string) : all_digits s = true → rstrip s = s.
Proof.
  induction s as [|c s' IH]; [done|]. cbn. intros [Hc Hs']%andb_prop.
  rewrite (IH Hs'). destruct (is_digit_facts c Hc) as (-> & _).
  by destruct s'.
Qed.

Lemma drop_underscores_digits (s : string) :
  all_digits s = true → drop_underscores true s = Some s.
Proof.
  induction s as [|c s' IH]; [done|]. cbn. intros [Hc Hs']%andb_prop.
  destruct (is_digit_facts c Hc) as (_ & -> & _).
  by rewrite (IH Hs').
Qed.

Lemma drop_underscores_digits_first (s : string) :
  all_digits s = true → s ≠ EmptyString → drop_underscores false s = Some s.
Proof.
  destruct s as [|c s']; [done|]. cbn. intros [Hc Hs']%andb_prop _.
  destruct (is_digit_facts c Hc) as (_ & -> & _).
  by rewrite (drop_underscores_digits s' Hs').
Qed.

Lemma str_count_digits_dot (s : string) :
  all_digits s = true → str_count s "." = 0%nat.
Proof.
  induction s as [|c s' IH]; [done|]. cbn. intros [Hc Hs']%andb_prop.
  destruct (is_digit_facts c Hc) as (_ & _ & _ & _ & -> & _).
  by rewrite (IH Hs').
Qed.

Lemma str_of_int_cases (k : Z) :
  ∃ d, d ≠ Decimal.Nil ∧ Z.of_uint d = Z.abs k
     ∧ ((0 ≤ k ∧ str_of_int k = NilEmpty.string_of_uint d)
        ∨ (k < 0 ∧ str_of_int k = String "-" (NilEmpty.string_of_uint d))).
Proof.
  destruct k as [|p|p].
  - exists (Decimal.D0 Decimal.Nil). split_and!; [done..|]. left. done.
  - exists (Pos.to_uint p).
    pose proof (DecimalPos.Unsigned.to_uint_nonnil p) as Hnil.
    split_and!; [done| |].
    + unfold Z.of_uint. by rewrite DecimalPos.Unsigned.of_to.
    + left. split; [lia|]. unfold str_of_int. cbn.
      unfold NilZero.string_of_uint. by destruct (Pos.to_uint p).
  - exists (Pos.to_uint p).
    pose proof (DecimalPos.Unsigned.to_uint_nonnil p) as Hnil.
    split_and!; [done| |].
    + unfold Z.of_uint. by rewrite DecimalPos.Unsigned.of_to.
    + right. split; [lia|]. unfold str_of_int. cbn.
      unfold NilZero.string_of_uint. by destruct (Pos.to_uint p).
Qed.

Lemma uint_of_string_of_uint (d : Decimal.uint) :
  d ≠ Decimal.Nil →
  NilZero.uint_of_string (NilEmpty.string_of_uint d) = Some d.
Proof.
  intros Hd. pose proof (NilZero.usu d Hd) as H.
  unfold NilZero.string_of_uint in H. by destruct d.
Qed.

(** [int(str(k)) == k] *)
Lemma py_int_str_of_int (k : Z) : py_int (str_of_int k) = Ok k.
Proof.
  destruct (str_of_int_cases k) as (d & Hd & Hval & [[Hk ->]|[Hk ->]]);
    pose proof (string_of_uint_digits d) as Hdig;
    pose proof (string_of_uint_nonempty d Hd) as Hne;
    unfold py_int.
  - rewrite lstrip_digits, rstrip_digits by done.
    destruct (NilEmpty.string_of_uint d) as [|c s'] eqn:Es; [done|].
    cbn in Hdig. apply andb_prop in Hdig as [Hc Hs'].
    destruct (is_digit_facts c Hc) as (_ & _ & -> & -> & _).
    rewrite drop_underscores_digits_first; [|by cbn; rewrite Hc, Hs'|done].
    cbn [mbind option_bind]. rewrite <- Es, uint_of_string_of_uint by done.
    f_equal. lia.
  - cbn [lstrip]. change (is_space "-") with false. cbv iota.
    assert (rstrip (String "-" (NilEmpty.string_of_uint d))
            = String "-" (NilEmpty.string_of_uint d)) as ->.
    { cbn [rstrip]. rewrite rstrip_digits by done.
      by destruct (NilEmpty.string_of_uint d). }
    change (Ascii.eqb "-" "-") with true. cbv iota.
    rewrite drop_underscores_digits_first by done.
    cbn [mbind option_bind]. rewrite uint_of_string_of_uint by done.
    f_equal. lia.
Qed.

Lemma str_of_int_not_k (k : Z) : String.eqb (str_of_int k) "k" = false.
Proof.
  destruct (str_of_int_cases k) as (d & Hd & _ & [[_ ->]|[_ ->]]); [|done].
  pose proof (string_of_uint_digits d) as Hdig.
  destruct (NilEmpty.string_of_uint d) as [|c s']; [done|].
  cbn in Hdig. apply andb_prop in Hdig as [Hc _]. cbn.
  by destruct (is_digit_facts c Hc) as (_ & _ & _ & _ & _ & ->).
Qed.

Lemma str_count_str_of_int (k : Z) : str_count (str_of_int k) "." = 0%nat.
Proof.
  destruct (str_of_int_cases k) as (d & _ & _ & [[_ ->]|[_ ->]]).
  - apply str_count_digits_dot, string_of_uint_digits.
  - cbn. apply str_count_digits_dot, string_of_uint_digits.
Qed.

Example py_int_examples :
  py_int "10" = Ok 10 ∧ py_int " +1_0 " = Ok 10 ∧ py_int "-3" = Ok (-3)
  ∧ py_int "010" = Ok 10 ∧ is_ValueError (py_int "")
  ∧ is_ValueError (py_int "1__0") ∧ is_ValueError (py_int "_1")
  ∧ is_ValueError (py_int "+-1") ∧ is_ValueError (py_int "1 0")
  ∧ is_ValueError (py_int "abc") ∧ str_of_int (-12) = "-12"
  ∧ str_of_int 0 = "0".
Proof. unfold is_ValueError. repeat split; vm_compute; eauto. Qed.

(** ** Prefixes *)

Lemma startswith_app (p k : string) : startswith (p +:+ k) p = true.
Proof.
  unfold startswith. induction p as [|a p IH]; simpl; [by destruct k|].
  by destruct (ascii_dec a a).
Qed.

Lemma str_drop_app (p k : string) : str_drop (String.length p) (p +:+ k) = k.
Proof. induction p as [|a p IH]; simpl; [by destruct k|done]. Qed.

Lemma startswith_inv (s p : string) :
  startswith s p = true → s = p +:+ str_drop (String.length p) s.
Proof.
  unfold startswith. revert s. induction p as [|a p IH]; intros s; simpl.
  - done.
  - destruct s as [|b s]; simpl; [done|].
    destruct (ascii_dec a b) as [->|]; [|done].
    intros H. change (String b s = String b (p +:+ str_drop (String.length p) s)).
    f_equal. by apply IH.
Qed.

Lemma str_app_inj (p k k' : string) : p +:+ k = p +:+ k' → k = k'.
Proof.
  intros H. rewrite <- (str_drop_app p k), <- (str_drop_app p k'). by rewrite H.
Qed.

(** ** Metric names *)

Lemma py_int_cases (s : string) :
  (∃ z, py_int s = Ok z) ∨ py_int s = Raise (int_literal_error s).
Proof.
  unfold py_int.
  destruct (rstrip (lstrip s)) as [|c rest];
    [|destruct (Ascii.eqb c "-"); [|destruct (Ascii.eqb c "+")]];
    match goal with
    | |- context [drop_underscores false ?d ≫= _] =>
        destruct (drop_underscores false d ≫= NilZero.uint_of_string)
    end; eauto.
Qed.

Lemma getitem_not_ValueError `{Countable K} {V} (d : gmap K V) (k : K) :
  ¬ is_ValueError (getitem d k).
Proof. unfold getitem. intros [msg Hmsg]. by destruct (d !! k). Qed.

Lemma hits_tail_ValueError (k : string) (h : gmap Z fnum) :
  is_ValueError
    ((if String.eqb k "k" then Ok 10 else py_int k) ≫= getitem h)
  ↔ ¬ (k = "k" ∨ ∃ z, py_int k = Ok z).
Proof.
  destruct (String.eqb_spec k "k") as [->|Hk].
  - split; [|tauto]. intros Hv. by apply getitem_not_ValueError in Hv.
  - destruct (py_int_cases k) as [[z Hz]|Hz]; rewrite Hz.
    + split; [|intros []; eauto].
      intros Hv. by apply getitem_not_ValueError in Hv.
    + split; [|intros _; by eexists].
      intros _ [?|[z Hz']]; [done|]. congruence.
Qed.

Lemma hits_lookup_ValueError (name metric : string) (h : gmap Z fnum) :
  is_ValueError (hits_lookup ["hits_at_"; "hits@"] name metric h)
  ↔ ¬ hits_designator metric.
Proof.
  cbn [hits_lookup].
  destruct (startswith metric "hits_at_") eqn:E1; cbn [negb].
  { apply startswith_inv in E1. rewrite hits_tail_ValueError.
    split.
    - intros Hk (p & k & [->| ->] & Hm & Hk'); rewrite Hm in E1.
      + apply str_app_inj in E1. rewrite Hm, str_drop_app in Hk. tauto.
      + discriminate E1.
    - intros Hd Hk. apply Hd.
      exists "hits_at_", (str_drop (String.length "hits_at_") metric). auto. }
  destruct (startswith metric "hits@") eqn:E2; cbn [negb].
  { apply startswith_inv in E2. rewrite hits_tail_ValueError.
    split.
    - intros Hk (p & k & [->| ->] & Hm & Hk'); rewrite Hm in E2.
      + discriminate E2.
      + apply str_app_inj in E2. rewrite Hm, str_drop_app in Hk. tauto.
    - intros Hd Hk. apply Hd.
      exists "hits@", (str_drop (String.length "hits@") metric). auto. }
  split; [|intros _; by eexists].
  intros _ (p & k & [->| ->] & -> & _).
  - by rewrite startswith_app in E1.
  - by rewrite startswith_app in E2.
Qed.

Lemma in_RANK_TYPES_spec (rank_type : string) :
  in_RANK_TYPES rank_type = true ↔ rank_type ∈ RANK_TYPES.
Proof.
  unfold in_RANK_TYPES, RANK_TYPES, RANK_BEST, RANK_WORST, RANK_AVERAGE.
  cbn [existsb].
  rewrite !orb_true_iff, !String.eqb_eq, !elem_of_cons, elem_of_nil.
  intuition discriminate.
Qed.

Lemma finalize_hits_complete (e : RankBasedEvaluator) :
  hits_complete (finalize e).1.
Proof.
  intros rank_type Hin. unfold RANK_TYPES in Hin.
  repeat (apply elem_of_cons in Hin as [->|Hin]);
    [..|by apply elem_of_nil in Hin]; by eexists.
Qed.

Lemma metric_lookup_ValueError (self : RankBasedMetricResults)
    (name rank_type metric : string) :
  hits_complete self →
  is_ValueError
    (if negb (in_RANK_TYPES rank_type)
     then Raise (ValueError ("Invalid rank type: " +:+ rank_type))
     else if String.eqb metric "mean_rank"
     then getitem (mean_rank self) rank_type
     else if String.eqb metric "mean_reciprocal_rank"
     then getitem (mean_reciprocal_rank self) rank_type
     else
       getitem (hits_at_k self) rank_type
         ≫= hits_lookup ["hits_at_"; "hits@"] name metric)
  ↔ rank_type ∉ RANK_TYPES ∨ ¬ valid_metric metric.
Proof.
  intros Hhits. unfold valid_metric.
  destruct (in_RANK_TYPES rank_type) eqn:Hrt; cbn [negb].
  2: { split; [|intros _; by eexists]. intros _. left.
       rewrite <- in_RANK_TYPES_spec. congruence. }
  apply in_RANK_TYPES_spec in Hrt.
  destruct (String.eqb_spec metric "mean_rank") as [->|Hmr].
  { split; [intros Hv; by apply getitem_not_ValueError in Hv|].
    intros [?|Hm]; [done|]. destruct Hm. auto. }
  destruct (String.eqb_spec metric "mean_reciprocal_rank") as [->|Hmrr].
  { split; [intros Hv; by apply getitem_not_ValueError in Hv|].
    intros [?|Hm]; [done|]. destruct Hm. auto. }
  destruct (Hhits rank_type Hrt) as [h Hh]. unfold getitem at 1. rewrite Hh.
  cbn [mbind result_bind]. rewrite hits_lookup_ValueError. tauto.
Qed.

(** C5, as stated, fails: the rank kind adj is rejected. *)
Lemma adj_rank_kind_rejected :
  let r := (finalize (init None true)).1 in
  str_count "adj.mean_rank" "." = 1%nat
  ∧ name_parts "adj.mean_rank" = ("adj", "mean_rank")
  ∧ get_metric r "adj.mean_rank" = Raise (ValueError "Invalid rank type: adj").
Proof. split_and!; vm_compute; reflexivity. Qed.

(** C5, amended: on a result whose hits dictionary has every rank kind (as
    every result of [finalize] has), [get_metric] raises a [ValueError]
    exactly when the name is not the reserved [adjusted_mean_rank] and
    either has more than one dot, or its rank kind is not one of best,
    worst, avg, or its metric is neither [mean_rank] nor
    [mean_reciprocal_rank] nor a hits-at-k designator. *)
Theorem get_metric_invalid_name (self : RankBasedMetricResults) (name : string) :
  hits_complete self →
  is_ValueError (get_metric self name)
  ↔ name ≠ "adjusted_mean_rank"
    ∧ ((1 < str_count name ".")%nat
       ∨ (name_parts name).1 ∉ RANK_TYPES
       ∨ ¬ valid_metric (name_parts name).2).
Proof.
  intros Hhits. unfold get_metric, name_parts.
  destruct (String.eqb_spec name "adjusted_mean_rank") as [->|Hname].
  { split; [intros [msg Hmsg]; discriminate|intros [? _]; done]. }
  destruct (Nat.eqb_spec (str_count name ".") 0) as [E0|E0].
  { cbn [mbind result_bind fst snd].
    rewrite (metric_lookup_ValueError self name "avg" name Hhits).
    split; [intros; split; [done|tauto]|]. intros [_ [?|?]]; [lia|done]. }
  destruct (Nat.eqb_spec (str_count name ".") 1) as [E1|E1].
  { cbn [mbind result_bind]. destruct (str_split1 name ".") as [rank_type metric].
    cbn [fst snd].
    rewrite (metric_lookup_ValueError self name rank_type metric Hhits).
    split; [intros; split; [done|tauto]|]. intros [_ [?|?]]; [lia|done]. }
  cbn [mbind result_bind].
  split; [|intros _; by eexists]. intros _. split; [done|]. left. lia.
Qed.

Lemma get_metric_invalid_name_witness :
  is_ValueError (get_metric (finalize (init None true)).1 "avg.hits_at_ten")
  ↔ "avg.hits_at_ten" ≠ "adjusted_mean_rank"
    ∧ ((1 < str_count "avg.hits_at_ten" ".")%nat
       ∨ (name_parts "avg.hits_at_ten").1 ∉ RANK_TYPES
       ∨ ¬ valid_metric (name_parts "avg.hits_at_ten").2).
Proof.
  apply (get_metric_invalid_name (finalize (init None true)).1
           "avg.hits_at_ten").
  apply finalize_hits_complete.
Defined.

Example get_metric_names :
  let r := (finalize (init None true)).1 in
  is_ValueError (get_metric r "a.b.c")
  ∧ is_ValueError (get_metric r "median.mean_rank")
  ∧ is_ValueError (get_metric r "avg.hits_at_ten")
  ∧ is_ValueError (get_metric r "best.variance")
  ∧ get_metric r "adjusted_mean_rank" = Ok FNaN
  ∧ get_metric r "worst.hits@3" = Ok (FFin 0)
  ∧ get_metric r "hits@7" = Raise KeyError.
Proof. unfold is_ValueError. split_and!; vm_compute; eauto. Qed.

(** ** Dotted names *)

Lemma str_app_cons (a : ascii) (s k : string) :
  String a s +:+ k = String a (s +:+ k).
Proof. reflexivity. Qed.

Lemma str_count_app (s k : string) (c : ascii) :
  str_count (s +:+ k) c = (str_count s c + str_count k c)%nat.
Proof.
  induction s as [|a s IH]; [done|].
  rewrite str_app_cons. cbn [str_count]. rewrite IH. lia.
Qed.

Lemma str_split1_app (s k : string) (c : ascii) :
  str_count s c = 0%nat → str_split1 (s +:+ String c k) c = (s, k).
Proof.
  induction s as [|a s IH]; cbn [str_count].
  - intros _. change (EmptyString +:+ String c k) with (String c k).
    cbn [str_split1]. by rewrite Ascii.eqb_refl.
  - rewrite str_app_cons. cbn [str_split1].
    destruct (Ascii.eqb a c); [done|]. intros Hs. by rewrite (IH Hs).
Qed.

(** [get_metric] on a name made of a rank kind, a dot and a metric. *)
Lemma get_metric_dotted (self : RankBasedMetricResults)
    (rank_type metric : string) :
  str_count rank_type "." = 0%nat → str_count metric "." = 0%nat →
  in_RANK_TYPES rank_type = true →
  get_metric self (rank_type +:+ String "." metric)
  = if String.eqb metric "mean_rank"
    then getitem (mean_rank self) rank_type
    else if String.eqb metric "mean_reciprocal_rank"
    then getitem (mean_reciprocal_rank self) rank_type
    else
      getitem (hits_at_k self) rank_type
        ≫= hits_lookup ["hits_at_"; "hits@"]
             (rank_type +:+ String "." metric) metric.
Proof.
  intros Hrt Hm Hin. unfold get_metric.
  assert (str_count (rank_type +:+ String "." metric) "." = 1%nat) as Hdots.
  { rewrite str_count_app. cbn [str_count]. change (Ascii.eqb "." ".") with true.
    rewrite Hrt, Hm. done. }
  destruct (String.eqb_spec (rank_type +:+ String "." metric)
              "adjusted_mean_rank") as [Heq|_].
  { rewrite Heq in Hdots. discriminate Hdots. }
  rewrite Hdots. cbn [Nat.eqb mbind result_bind].
  rewrite str_split1_app by done. by rewrite Hin.
Qed.

Lemma RANK_TYPES_no_dot (rank_type : string) :
  rank_type ∈ RANK_TYPES → str_count rank_type "." = 0%nat.
Proof.
  intros Hin. unfold RANK_TYPES in Hin.
  repeat (apply elem_of_cons in Hin as [->|Hin]);
    [..|by apply elem_of_nil in Hin]; reflexivity.
Qed.

Lemma get_metric_mean_rank_key (self : RankBasedMetricResults)
    (rank_type : string) :
  rank_type ∈ RANK_TYPES →
  get_metric self (rank_type +:+ ".mean_rank")
  = getitem (mean_rank self) rank_type.
Proof.
  intros Hin.
  rewrite (get_metric_dotted self rank_type "mean_rank");
    [done|by apply RANK_TYPES_no_dot|done|by apply in_RANK_TYPES_spec].
Qed.

Lemma get_metric_mean_reciprocal_rank_key (self : RankBasedMetricResults)
    (rank_type : string) :
  rank_type ∈ RANK_TYPES →
  get_metric self (rank_type +:+ ".mean_reciprocal_rank")
  = getitem (mean_reciprocal_rank self) rank_type.
Proof.
  intros Hin.
  rewrite (get_metric_dotted self rank_type "mean_reciprocal_rank");
    [done|by apply RANK_TYPES_no_dot|done|by apply in_RANK_TYPES_spec].
Qed.

Lemma get_metric_hits_key (self : RankBasedMetricResults)
    (rank_type : string) (k : Z) :
  rank_type ∈ RANK_TYPES →
  get_metric self (rank_type +:+ ".hits_at_" +:+ str_of_int k)
  = getitem (hits_at_k self) rank_type ≫= λ h, getitem h k.
Proof.
  intros Hin.
  change (rank_type +:+ ".hits_at_" +:+ str_of_int k)
    with (rank_type +:+ String "." ("hits_at_" +:+ str_of_int k)).
  rewrite get_metric_dotted; [|by apply RANK_TYPES_no_dot| |by apply in_RANK_TYPES_spec].
  2: { rewrite str_count_app. by rewrite str_count_str_of_int. }
  change (String.eqb ("hits_at_" +:+ str_of_int k) "mean_rank") with false.
  change (String.eqb ("hits_at_" +:+ str_of_int k) "mean_reciprocal_rank")
    with false.
  cbv iota. destruct (getitem (hits_at_k self) rank_type) as [h|]; [|done].
  cbn [mbind result_bind hits_lookup].
  rewrite startswith_app. cbn [negb]. rewrite str_drop_app.
  by rewrite str_of_int_not_k, py_int_str_of_int.
Qed.

(** ** The flat dictionary *)

Section Entries.
Context (P : string → fnum → Prop).

Lemma entries_insert (r : gmap string fnum) (k0 : string) (v0 : fnum) :
  entries_satisfy P r → P k0 v0 → entries_satisfy P (<[k0 := v0]> r).
Proof.
  intros Hr H0 key v. destruct (decide (k0 = key)) as [<-|Hne].
  - rewrite lookup_insert_eq. by intros [= <-].
  - rewrite lookup_insert_ne by done. apply Hr.
Qed.

Lemma entries_foldl_insert {X} (f : X → string) (g : X → fnum) (l : list X)
    (r : gmap string fnum) :
  entries_satisfy P r → (∀ x, x ∈ l → P (f x) (g x)) →
  entries_satisfy P (foldl (λ (r : gmap string fnum) x, <[f x := g x]> r) r l).
Proof.
  revert r. induction l as [|x l IH]; intros r Hr Hl; [done|]. cbn.
  apply IH.
  - apply entries_insert; [done|]. apply Hl. constructor.
  - intros y Hy. apply Hl. by constructor.
Qed.
End Entries.

Lemma getitem_Ok `{Countable K} {V} (d : gmap K V) (k : K) (v : V) :
  getitem d k = Ok v ↔ d !! k = Some v.
Proof. unfold getitem. destruct (d !! k); split; congruence. Qed.

Lemma to_flat_dict_body_entries (self : RankBasedMetricResults)
    (rank_type : string) (r r' : gmap string fnum) :
  rank_type ∈ RANK_TYPES →
  entries_satisfy (flat_entry self) r →
  to_flat_dict_body self r rank_type = Ok r' →
  entries_satisfy (flat_entry self) r'.
Proof.
  intros Hrt Hr. unfold to_flat_dict_body.
  destruct (getitem (mean_rank self) rank_type) as [mr|] eqn:Hmr; [|done].
  destruct (getitem (mean_reciprocal_rank self) rank_type) as [mrr|] eqn:Hmrr;
    [|done].
  destruct (getitem (hits_at_k self) rank_type) as [h|] eqn:Hh; [|done].
  apply getitem_Ok in Hmr, Hmrr, Hh.
  cbn [mbind result_bind mret result_ret]. intros [= <-].
  apply (entries_foldl_insert (flat_entry self)
           (λ kv : Z * fnum, rank_type +:+ ".hits_at_" +:+ str_of_int kv.1)
           (λ kv, kv.2)).
  - repeat apply entries_insert; [done|..]; right; exists rank_type; eauto.
  - intros [k v] Hkv%elem_of_map_to_list. right. exists rank_type.
    split; [done|]. right; right. by exists h, k.
Qed.

Lemma for_each_entries (self : RankBasedMetricResults)
    (l : list string) (r d : gmap string fnum) :
  (∀ rank_type, rank_type ∈ l → rank_type ∈ RANK_TYPES) →
  entries_satisfy (flat_entry self) r →
  for_each (to_flat_dict_body self) l r = Ok d →
  entries_satisfy (flat_entry self) d.
Proof.
  revert r. induction l as [|rank_type l IH]; intros r Hl Hr; cbn [for_each].
  { by intros [= <-]. }
  destruct (to_flat_dict_body self r rank_type) as [r'|] eqn:Hbody; [|done].
  cbn [mbind result_bind]. apply IH.
  - intros rt Hrt. apply Hl. by constructor.
  - eapply to_flat_dict_body_entries; [|done..]. apply Hl. constructor.
Qed.

Lemma to_flat_dict_entries (self : RankBasedMetricResults)
    (d : gmap string fnum) :
  to_flat_dict self = Ok d → entries_satisfy (flat_entry self) d.
Proof.
  unfold to_flat_dict. apply for_each_entries; [done|].
  intros key v [<- <-]%lookup_singleton_Some. by left.
Qed.

(** C4, as stated, fails: the flat dictionary has the key
    [avg.adjusted_mean_rank], which [get_metric] rejects. *)
Lemma flat_key_rejected :
  let r := (finalize (init None true)).1 in
  ∃ d, to_flat_dict r = Ok d
     ∧ d !! "avg.adjusted_mean_rank" = Some FNaN
     ∧ get_metric r "avg.adjusted_mean_rank"
       = Raise (ValueError "Invalid metric name: avg.adjusted_mean_rank").
Proof.
  eexists. split; [reflexivity|]. split; vm_compute; reflexivity.
Qed.

(** C4, amended: for every key of the flat dictionary other than
    [avg.adjusted_mean_rank], [get_metric] returns the value stored under
    that key; the value stored under [avg.adjusted_mean_rank] is what
    [get_metric] returns for [adjusted_mean_rank]; and [get_metric] gives
    the same result for [hits@k] and for [avg.hits_at_10]. *)
Theorem flat_dict_consistent (self : RankBasedMetricResults)
    (d : gmap string fnum) :
  to_flat_dict self = Ok d →
  (∀ key v, d !! key = Some v → key ≠ "avg.adjusted_mean_rank" →
     get_metric self key = Ok v)
  ∧ (∀ v, d !! "avg.adjusted_mean_rank" = Some v →
       get_metric self "adjusted_mean_rank" = Ok v)
  ∧ get_metric self "hits@k" = get_metric self "avg.hits_at_10".
Proof.
  intros Hd. pose proof (to_flat_dict_entries self d Hd) as Hentries.
  split_and!; [| |reflexivity].
  - intros key v Hkey Hne.
    destruct (Hentries key v Hkey)
      as [[-> _]|(rt & Hrt & [[-> Hv]|[[-> Hv]|(h & k & -> & Hh & Hv)]])];
      [done|..].
    + rewrite get_metric_mean_rank_key by done. by apply getitem_Ok.
    + rewrite get_metric_mean_reciprocal_rank_key by done. by apply getitem_Ok.
    + rewrite get_metric_hits_key by done.
      apply getitem_Ok in Hh. rewrite Hh. cbn. by apply getitem_Ok.
  - intros v Hv.
    destruct (Hentries _ v Hv)
      as [[_ ->]|(rt & Hrt & Hcases)]; [done|].
    unfold RANK_TYPES in Hrt.
    repeat (apply elem_of_cons in Hrt as [->|Hrt]);
      [..|by apply elem_of_nil in Hrt].
    all: destruct Hcases as [[Hk _]|[[Hk _]|(h & k & Hk & _)]];
      discriminate Hk.
Qed.

Lemma flat_dict_consistent_witness :
  ∃ d, to_flat_dict example_results = Ok d
     ∧ d !! "best.hits_at_1" = Some (FFin (1 # 2))
     ∧ (∀ key v, d !! key = Some v → key ≠ "avg.adjusted_mean_rank" →
          get_metric example_results key = Ok v)
     ∧ (∀ v, d !! "avg.adjusted_mean_rank" = Some v →
          get_metric example_results "adjusted_mean_rank" = Ok v)
     ∧ get_metric example_results "hits@k"
       = get_metric example_results "avg.hits_at_10".
Proof.
  eexists. split; [reflexivity|]. split; [vm_compute; reflexivity|].
  apply (flat_dict_consistent example_results). reflexivity.
Defined.

(** * Further properties of [compute_rank_from_scores] *)

(** The only exception is the shape error of broadcasting; it is raised
    exactly when the batch sizes of the true scores and of the scores differ
    and neither of them is 1. *)
Theorem compute_rank_from_scores_raises (true_score : list score)
    (all_scores : list (list score)) (e : exn) :
  compute_rank_from_scores true_score all_scores = Raise e
  ↔ length true_score ≠ length all_scores
    ∧ length true_score ≠ 1%nat ∧ length all_scores ≠ 1%nat
    ∧ e = ShapeError (length all_scores) (length true_score).
Proof.
  rewrite compute_rank_from_scores_spec.
  destruct (broadcast2_cases (λ (row : list score) (t : score), row_ranks t row)
              all_scores true_score)
    as [[Hlen E]|[(row & -> & Hts & E)|[(t & -> & Hall & E)|(Hne & Ha & Hb & E)]]];
    rewrite E; cbn.
  - split; [done|]. intros (? & _). congruence.
  - split; [done|]. intros (_ & _ & ? & _). done.
  - split; [done|]. intros (_ & ? & _). done.
  - split.
    + intros [= <-]. split_and!; congruence.
    + by intros (_ & _ & _ & ->).
Qed.

(** When it returns, the four rank tensors have one entry per example, the
    number of examples being the broadcast batch size. *)
Theorem compute_rank_from_scores_shape (true_score : list score)
    (all_scores : list (list score)) (d : list (string * tensor)) :
  compute_rank_from_scores true_score all_scores = Ok d →
  ∃ best worst avg adj,
    d = [ (RANK_BEST, IntTensor best); (RANK_WORST, IntTensor worst);
          (RANK_AVERAGE, FloatTensor avg);
          (RANK_AVERAGE_ADJUSTED, FloatTensor adj) ]
    ∧ length best = broadcast_size (length all_scores) (length true_score)
    ∧ length worst = broadcast_size (length all_scores) (length true_score)
    ∧ length avg = broadcast_size (length all_scores) (length true_score)
    ∧ length adj = broadcast_size (length all_scores) (length true_score).
Proof.
  rewrite compute_rank_from_scores_spec. unfold broadcast_size.
  destruct (broadcast2_cases (λ (row : list score) (t : score), row_ranks t row)
              all_scores true_score)
    as [[Hlen E]|[(row & -> & Hts & E)|[(t & -> & Hall & E)|(Hne & Ha & Hb & E)]]];
    rewrite E; cbn [fmap result_fmap]; [| | |done].
  all: intros [= <-]; unfold ranks_dict; do 4 eexists; split; [reflexivity|].
  - rewrite !length_fmap, length_zip_with, Hlen, Nat.eqb_refl. lia.
  - rewrite !length_fmap. cbn [length].
    destruct (Nat.eqb_spec 1 (length true_score)); [congruence|done].
  - rewrite !length_fmap. cbn [length].
    destruct (Nat.eqb_spec (length all_scores) 1); [congruence|].
    by destruct (Nat.eqb_spec (length all_scores) 1).
Qed.

Lemma compute_rank_from_scores_shape_witness :
  ∃ best worst avg adj,
    [ (RANK_BEST, IntTensor [2; 2]); (RANK_WORST, IntTensor [2; 2]);
      (RANK_AVERAGE, FloatTensor [FFin 2; FFin 2]);
      (RANK_AVERAGE_ADJUSTED, FloatTensor [FFin (4 # 3); FFin (4 # 3)]) ]
    = [ (RANK_BEST, IntTensor best); (RANK_WORST, IntTensor worst);
        (RANK_AVERAGE, FloatTensor avg);
        (RANK_AVERAGE_ADJUSTED, FloatTensor adj) ]
    ∧ length best = broadcast_size 2 1 ∧ length worst = broadcast_size 2 1
    ∧ length avg = broadcast_size 2 1 ∧ length adj = broadcast_size 2 1.
Proof.
  apply (compute_rank_from_scores_shape [f32 5]
           [[f32 5; f32 7]; [f32 9; f32 5]]).
  vm_compute. reflexivity.
Defined.

(** In every example the worst rank exceeds the best rank by the number of
    candidates that tie with the true score, less one; the best rank is at
    least 1 and the worst rank is at most the number of candidates. *)
Theorem worst_rank_is_best_rank_plus_ties (true_score : list score)
    (all_scores : list (list score)) (i : nat) (t : score) (row : list score) :
  length true_score = length all_scores →
  true_score !! i = Some t → all_scores !! i = Some row →
  ∃ best worst avg adj,
    compute_rank_from_scores true_score all_scores
    = Ok [ (RANK_BEST, IntTensor best); (RANK_WORST, IntTensor worst);
           (RANK_AVERAGE, FloatTensor avg);
           (RANK_AVERAGE_ADJUSTED, FloatTensor adj) ]
    ∧ ∃ b w, best !! i = Some b ∧ worst !! i = Some w
           ∧ w = b - 1 + ties t row
           ∧ 1 ≤ b ∧ 0 ≤ ties t row ∧ w ≤ Z.of_nat (length row).
Proof.
  intros Hlen Ht Hrow.
  rewrite compute_rank_from_scores_aligned by done.
  unfold ranks_of_rows. do 4 eexists. split; [reflexivity|].
  exists (best_rank_row t row), (worst_rank_row t row).
  split; [by apply (lookup_ranks_aligned (λ p, best_rank_row p.1 p.2))|].
  split; [by apply (lookup_ranks_aligned (λ p, worst_rank_row p.1 p.2))|].
  split_and!.
  - rewrite count_ge_split. unfold best_rank_row, ties. lia.
  - apply best_rank_row_pos.
  - apply count_true_nonneg.
  - unfold worst_rank_row.
    pose proof (count_true_le_length ((λ x, score_ge x t) <$> row)) as H.
    by rewrite length_fmap in H.
Qed.

Lemma worst_rank_is_best_rank_plus_ties_witness :
  ∃ best worst avg adj,
    compute_rank_from_scores [f32 5] [[f32 9; f32 5; nan; f32 5; f32 1]]
    = Ok [ (RANK_BEST, IntTensor best); (RANK_WORST, IntTensor worst);
           (RANK_AVERAGE, FloatTensor avg);
           (RANK_AVERAGE_ADJUSTED, FloatTensor adj) ]
    ∧ ∃ b w, best !! 0%nat = Some b ∧ worst !! 0%nat = Some w
           ∧ w = b - 1 + ties (f32 5) [f32 9; f32 5; nan; f32 5; f32 1]
           ∧ 1 ≤ b ∧ 0 ≤ ties (f32 5) [f32 9; f32 5; nan; f32 5; f32 1]
           ∧ w ≤ Z.of_nat (length [f32 9; f32 5; nan; f32 5; f32 1]).
Proof.
  apply (worst_rank_is_best_rank_plus_ties [f32 5]
           [[f32 9; f32 5; nan; f32 5; f32 1]] 0 (f32 5)); reflexivity.
Defined.

Lemma n_finite_row_nonneg (row : list score) : 0 ≤ n_finite_row row.
Proof. apply count_true_nonneg. Qed.

Lemma average_rank_row_value (t : score) (row : list score) :
  ∃ q, average_rank_row t row = FFin q
     ∧ (q == inject_Z (best_rank_row t row + worst_rank_row t row) / 2)%Q.
Proof.
  unfold average_rank_row, float_of_Z, half, fmul.
  eexists; split; [reflexivity|]. rewrite Qred_correct. field.
Qed.

Lemma expected_rank_row_value (row : list score) :
  ∃ q, expected_rank_row row = FFin q
     ∧ (q == (inject_Z (n_finite_row row) + 1) / 2)%Q ∧ (0 < q)%Q.
Proof.
  unfold expected_rank_row, float_of_Z, half, fone, fadd, fmul.
  eexists; split; [reflexivity|].
  assert (Qred ((1 # 2) * Qred (inject_Z (n_finite_row row) + 1))
          == (inject_Z (n_finite_row row) + 1) / 2)%Q as Hq
    by (rewrite !Qred_correct; field).
  split; [done|]. rewrite Hq.
  pose proof (n_finite_row_nonneg row) as Hn.
  apply Qlt_shift_div_l; [reflexivity|].
  unfold Qlt, Qplus, Qmult, inject_Z; cbn. lia.
Qed.

Lemma adjusted_rank_row_value (t : score) (row : list score) :
  ∃ q, adjusted_rank_row t row = FFin q
     ∧ (q == inject_Z (best_rank_row t row + worst_rank_row t row)
             / (inject_Z (n_finite_row row) + 1))%Q.
Proof.
  unfold adjusted_rank_row.
  destruct (average_rank_row_value t row) as (qa & -> & Hqa).
  destruct (expected_rank_row_value row) as (qe & -> & Hqe & Hpos).
  unfold fdiv.
  assert (Qeq_bool qe 0 = false) as ->.
  { apply not_true_is_false. intros H%Qeq_bool_iff.
    rewrite H in Hpos. by apply Qlt_irrefl in Hpos. }
  eexists; split; [reflexivity|].
  rewrite Qred_correct, Hqa, Hqe.
  pose proof (n_finite_row_nonneg row) as Hn.
  field. intros H.
  assert (0 < inject_Z (n_finite_row row) + 1)%Q as Hlt
    by (unfold Qlt, Qplus, inject_Z; cbn; lia).
  rewrite H in Hlt. by apply Qlt_irrefl in Hlt.
Qed.

(** In every example the average rank is the number [(best + worst) / 2]
    and the adjusted rank is the number [(best + worst) / (n + 1)], that is
    the average rank divided by [(n + 1) / 2], where [n] counts the finite
    candidates; neither is ever infinite or not-a-number. *)
Theorem average_and_adjusted_rank_values (true_score : list score)
    (all_scores : list (list score)) (i : nat) (t : score) (row : list score) :
  length true_score = length all_scores →
  true_score !! i = Some t → all_scores !! i = Some row →
  ∃ best worst avg adj,
    compute_rank_from_scores true_score all_scores
    = Ok [ (RANK_BEST, IntTensor best); (RANK_WORST, IntTensor worst);
           (RANK_AVERAGE, FloatTensor avg);
           (RANK_AVERAGE_ADJUSTED, FloatTensor adj) ]
    ∧ ∃ b w qa qj,
        best !! i = Some b ∧ worst !! i = Some w
        ∧ avg !! i = Some (FFin qa) ∧ adj !! i = Some (FFin qj)
        ∧ (qa == inject_Z (b + w) / 2)%Q
        ∧ (qj == inject_Z (b + w) / (inject_Z (n_finite_row row) + 1))%Q.
Proof.
  intros Hlen Ht Hrow.
  rewrite compute_rank_from_scores_aligned by done.
  unfold ranks_of_rows. do 4 eexists. split; [reflexivity|].
  destruct (average_rank_row_value t row) as (qa & Hqa & Hqa').
  destruct (adjusted_rank_row_value t row) as (qj & Hqj & Hqj').
  exists (best_rank_row t row), (worst_rank_row t row), qa, qj.
  split; [by apply (lookup_ranks_aligned (λ p, best_rank_row p.1 p.2))|].
  split; [by apply (lookup_ranks_aligned (λ p, worst_rank_row p.1 p.2))|].
  split; [rewrite <- Hqa;
          by apply (lookup_ranks_aligned (λ p, average_rank_row p.1 p.2))|].
  split; [rewrite <- Hqj;
          by apply (lookup_ranks_aligned (λ p, adjusted_rank_row p.1 p.2))|].
  done.
Qed.

Lemma average_and_adjusted_rank_values_witness :
  ∃ best worst avg adj,
    compute_rank_from_scores [f32 5] [[f32 9; f32 5; nan; f32 5; f32 1]]
    = Ok [ (RANK_BEST, IntTensor best); (RANK_WORST, IntTensor worst);
           (RANK_AVERAGE, FloatTensor avg);
           (RANK_AVERAGE_ADJUSTED, FloatTensor adj) ]
    ∧ ∃ b w qa qj,
        best !! 0%nat = Some b ∧ worst !! 0%nat = Some w
        ∧ avg !! 0%nat = Some (FFin qa) ∧ adj !! 0%nat = Some (FFin qj)
        ∧ (qa == inject_Z (b + w) / 2)%Q
        ∧ (qj == inject_Z (b + w)
                 / (inject_Z (n_finite_row [f32 9; f32 5; nan; f32 5; f32 1])
                    + 1))%Q.
Proof.
  apply (average_and_adjusted_rank_values [f32 5]
           [[f32 9; f32 5; nan; f32 5; f32 1]] 0 (f32 5)); reflexivity.
Defined.

Lemma score_gt_nan (x : score) : score_gt x nan = false.
Proof. reflexivity. Qed.

Lemma score_ge_nan (x : score) : score_ge x nan = false.
Proof. reflexivity. Qed.

Lemma count_true_all_false {X} (p : X → bool) (l : list X) :
  (∀ x, p x = false) → count_true (p <$> l) = 0.
Proof.
  intros Hp. induction l as [|x l IH]; [done|]. cbn.
  change (list_fmap _ _ ?f l) with (f <$> l). by rewrite Hp, IH.
Qed.

(** A true score that is not-a-number compares false with every candidate:
    the example gets best rank 1, worst rank 0 and average rank one half,
    whatever the candidates are. *)
Theorem nan_true_score_ranks (true_score : list score)
    (all_scores : list (list score)) (i : nat) (row : list score) :
  length true_score = length all_scores →
  true_score !! i = Some nan → all_scores !! i = Some row →
  ∃ best worst avg adj,
    compute_rank_from_scores true_score all_scores
    = Ok [ (RANK_BEST, IntTensor best); (RANK_WORST, IntTensor worst);
           (RANK_AVERAGE, FloatTensor avg);
           (RANK_AVERAGE_ADJUSTED, FloatTensor adj) ]
    ∧ best !! i = Some 1 ∧ worst !! i = Some 0
    ∧ avg !! i = Some (FFin (1 # 2)).
Proof.
  intros Hlen Ht Hrow.
  rewrite compute_rank_from_scores_aligned by done.
  unfold ranks_of_rows. do 4 eexists. split; [reflexivity|].
  assert (best_rank_row nan row = 1) as Hb.
  { unfold best_rank_row. by rewrite count_true_all_false. }
  assert (worst_rank_row nan row = 0) as Hw.
  { unfold worst_rank_row. by rewrite count_true_all_false. }
  split; [rewrite <- Hb;
          by apply (lookup_ranks_aligned (λ p, best_rank_row p.1 p.2))|].
  split; [rewrite <- Hw;
          by apply (lookup_ranks_aligned (λ p, worst_rank_row p.1 p.2))|].
  rewrite (lookup_ranks_aligned (λ p, average_rank_row p.1 p.2) _ _ _ nan row)
    by done.
  cbn [fst snd]. unfold average_rank_row. by rewrite Hb, Hw.
Qed.

Lemma nan_true_score_ranks_witness :
  ∃ best worst avg adj,
    compute_rank_from_scores [f32 2; nan] [[f32 1; f32 2]; [nan; f32 7]]
    = Ok [ (RANK_BEST, IntTensor best); (RANK_WORST, IntTensor worst);
           (RANK_AVERAGE, FloatTensor avg);
           (RANK_AVERAGE_ADJUSTED, FloatTensor adj) ]
    ∧ best !! 1%nat = Some 1 ∧ worst !! 1%nat = Some 0
    ∧ avg !! 1%nat = Some (FFin (1 # 2)).
Proof.
  apply (nan_true_score_ranks [f32 2; nan] [[f32 1; f32 2]; [nan; f32 7]]
           1 [nan; f32 7]); reflexivity.
Defined.

Lemma count_true_Permutation {X} (p : X → bool) (l l' : list X) :
  l ≡ₚ l' → count_true (p <$> l) = count_true (p <$> l').
Proof.
  induction 1 as [|x l l' _ IH|x y l|l l' l'' _ IH _ IH']; cbn;
    change (list_fmap _ _ ?f ?k) with (f <$> k); lia.
Qed.

Lemma row_ranks_Permutation (t : score) (row row' : list score) :
  row ≡ₚ row' → row_ranks t row = row_ranks t row'.
Proof.
  intros Hp.
  unfold row_ranks, adjusted_rank_row, expected_rank_row, average_rank_row,
    best_rank_row, worst_rank_row, n_finite_row.
  by rewrite !(count_true_Permutation _ row row' Hp).
Qed.

Lemma broadcast2_Forall2_l {X Y W} (R : X → X → Prop) (f : X → Y → W)
    (a a' : list X) (b : list Y) :
  (∀ x x' y, R x x' → f x y = f x' y) →
  Forall2 R a a' → broadcast2 f a b = broadcast2 f a' b.
Proof.
  intros Hf Ha. unfold broadcast2.
  rewrite <- (Forall2_length _ _ _ Ha).
  destruct (length a =? length b)%nat.
  - f_equal. revert b. induction Ha as [|x x' a a' Hx _ IH]; intros [|y b];
      cbn; [done..|]. by rewrite (Hf _ _ _ Hx), IH.
  - destruct Ha as [|x x' a a' Hx Ha]; [done|].
    destruct Ha as [|x2 x2' a a' Hx2 Ha].
    + f_equal. apply list_fmap_ext. intros _ y _. by apply Hf.
    + destruct b as [|y [|??]]; [done| |done]. f_equal. cbn.
      rewrite (Hf _ _ _ Hx), (Hf _ _ _ Hx2). do 2 f_equal.
      clear -Hf Ha. induction Ha as [|z z' a a' Hz _ IH]; cbn; [done|].
      by rewrite (Hf _ _ _ Hz), IH.
Qed.

(** The ranks of an example do not depend on the order of its candidates:
    permuting the scores within the rows changes nothing in the result. *)
Theorem candidate_order_irrelevant (true_score : list score)
    (all_scores all_scores' : list (list score)) :
  Forall2 Permutation all_scores all_scores' →
  compute_rank_from_scores true_score all_scores
  = compute_rank_from_scores true_score all_scores'.
Proof.
  intros Hp. rewrite !compute_rank_from_scores_spec. f_equal.
  apply (broadcast2_Forall2_l Permutation); [|done].
  intros row row' t Hrow. by apply row_ranks_Permutation.
Qed.

Lemma candidate_order_irrelevant_witness :
  compute_rank_from_scores [f32 5; f32 1]
    [[f32 5; f32 7; nan]; [f32 1; f32 0; f32 1]]
  = compute_rank_from_scores [f32 5; f32 1]
      [[nan; f32 5; f32 7]; [f32 0; f32 1; f32 1]].
Proof.
  apply candidate_order_irrelevant.
  constructor; [|constructor; [|constructor]].
  - symmetry. apply (Permutation_cons_append [f32 5; f32 7] nan).
  - apply perm_swap.
Defined.

(** Examples are ranked independently of each other: the ranks of two
    batches put one after the other are the ranks of the first followed by
    the ranks of the second. *)
Theorem ranks_of_concatenated_batches
    (true_score1 true_score2 : list score)
    (all_scores1 all_scores2 : list (list score)) :
  length true_score1 = length all_scores1 →
  length true_score2 = length all_scores2 →
  ∃ best1 worst1 avg1 adj1 best2 worst2 avg2 adj2,
    compute_rank_from_scores true_score1 all_scores1
    = Ok [ (RANK_BEST, IntTensor best1); (RANK_WORST, IntTensor worst1);
           (RANK_AVERAGE, FloatTensor avg1);
           (RANK_AVERAGE_ADJUSTED, FloatTensor adj1) ]
    ∧ compute_rank_from_scores true_score2 all_scores2
      = Ok [ (RANK_BEST, IntTensor best2); (RANK_WORST, IntTensor worst2);
             (RANK_AVERAGE, FloatTensor avg2);
             (RANK_AVERAGE_ADJUSTED, FloatTensor adj2) ]
    ∧ compute_rank_from_scores (true_score1 ++ true_score2)
        (all_scores1 ++ all_scores2)
      = Ok [ (RANK_BEST, IntTensor (best1 ++ best2));
             (RANK_WORST, IntTensor (worst1 ++ worst2));
             (RANK_AVERAGE, FloatTensor (avg1 ++ avg2));
             (RANK_AVERAGE_ADJUSTED, FloatTensor (adj1 ++ adj2)) ].
Proof.
  intros Hlen1 Hlen2.
  rewrite !compute_rank_from_scores_aligned
    by (rewrite ?length_app; congruence).
  unfold ranks_of_rows. do 8 eexists.
  split; [reflexivity|]. split; [reflexivity|].
  rewrite zip_with_app by done. by rewrite !fmap_app.
Qed.

Lemma ranks_of_concatenated_batches_witness :
  ∃ best1 worst1 avg1 adj1 best2 worst2 avg2 adj2,
    compute_rank_from_scores [f32 3] [[f32 3; f32 2; f32 1]]
    = Ok [ (RANK_BEST, IntTensor best1); (RANK_WORST, IntTensor worst1);
           (RANK_AVERAGE, FloatTensor avg1);
           (RANK_AVERAGE_ADJUSTED, FloatTensor adj1) ]
    ∧ compute_rank_from_scores [f32 1] [[f32 1; f32 5; f32 0]]
      = Ok [ (RANK_BEST, IntTensor best2); (RANK_WORST, IntTensor worst2);
             (RANK_AVERAGE, FloatTensor avg2);
             (RANK_AVERAGE_ADJUSTED, FloatTensor adj2) ]
    ∧ compute_rank_from_scores ([f32 3] ++ [f32 1])
        ([[f32 3; f32 2; f32 1]] ++ [[f32 1; f32 5; f32 0]])
      = Ok [ (RANK_BEST, IntTensor (best1 ++ best2));
             (RANK_WORST, IntTensor (worst1 ++ worst2));
             (RANK_AVERAGE, FloatTensor (avg1 ++ avg2));
             (RANK_AVERAGE_ADJUSTED, FloatTensor (adj1 ++ adj2)) ].
Proof.
  apply (ranks_of_concatenated_batches [f32 3] [f32 1]
           [[f32 3; f32 2; f32 1]] [[f32 1; f32 5; f32 0]]); reflexivity.
Defined.

(** * Further properties of [RankBasedEvaluator] *)

Lemma foldl_extend_fields (l : list (string * tensor)) (self : RankBasedEvaluator) :
  let e := foldl (λ self kv, extend self kv.1 (tolist kv.2)) self l in
  ks e = ks self ∧ filtered e = filtered self.
Proof.
  revert self. induction l as [|kv l IH]; intros self; [done|].
  cbn [foldl]. destruct (IH (extend self kv.1 (tolist kv.2))) as [-> ->]. done.
Qed.

Lemma _update_ranks__fields (self e : RankBasedEvaluator)
    (ts : list score) (all : list (list score)) :
  _update_ranks_ self ts all = Ok e →
  ks e = ks self ∧ filtered e = filtered self.
Proof.
  unfold _update_ranks_.
  destruct (compute_rank_from_scores ts all) as [d|]; [|done].
  intros [= <-]. apply foldl_extend_fields.
Qed.

Lemma process_batches_fields (bs : list batch) (self e : RankBasedEvaluator) :
  process_batches bs self = Ok e →
  ks e = ks self ∧ filtered e = filtered self.
Proof.
  unfold process_batches. revert self.
  induction bs as [|b bs IH]; intros self; cbn [for_each].
  { by intros [= <-]. }
  destruct (process_batch self b) as [e1|] eqn:Hb; [|done].
  cbn [mbind result_bind]. intros [-> ->]%IH.
  unfold process_batch, process_tail_scores_, process_head_scores_ in Hb.
  destruct (batch_direction b); by apply _update_ranks__fields in Hb.
Qed.

Lemma batch_values_length (k : string) (rows : list (score * list score)) :
  k ∈ [RANK_BEST; RANK_WORST; RANK_AVERAGE; RANK_AVERAGE_ADJUSTED] →
  length (batch_values k rows) = length rows.
Proof.
  intros Hk. repeat (apply elem_of_cons in Hk as [->|Hk]);
    [..|by apply elem_of_nil in Hk];
    unfold batch_values, ranks_of_rows; cbn; by rewrite !length_fmap.
Qed.

Lemma batch_values_other (k : string) (rows : list (score * list score)) :
  k ∉ [RANK_BEST; RANK_WORST; RANK_AVERAGE; RANK_AVERAGE_ADJUSTED] →
  batch_values k rows = [].
Proof.
  intros Hk. unfold batch_values, ranks_of_rows. cbn [dict_get].
  repeat match goal with
  | |- context [String.eqb ?a k] =>
      destruct (String.eqb_spec a k) as [<-|?];
      [exfalso; apply Hk; set_solver|]
  end.
  done.
Qed.

(** Processing batches keeps the configuration and makes the four
    accumulators grow together: each of best, worst, avg and adj gains one
    value per processed example, and no other key gains anything. *)
Theorem accumulators_grow_together (self e : RankBasedEvaluator)
    (bs : list batch) :
  Forall batch_aligned bs →
  process_batches bs self = Ok e →
  ks e = ks self ∧ filtered e = filtered self
  ∧ (∀ k, k ∈ [RANK_BEST; RANK_WORST; RANK_AVERAGE; RANK_AVERAGE_ADJUSTED] →
       length (accumulated e k)
       = (length (accumulated self k) + length (cat_true_scores bs))%nat)
  ∧ (∀ k, k ∉ [RANK_BEST; RANK_WORST; RANK_AVERAGE; RANK_AVERAGE_ADJUSTED] →
       accumulated e k = accumulated self k).
Proof.
  intros Hbs He.
  destruct (process_batches_fields bs self e He) as [Hks Hf].
  destruct (process_batches_accumulated bs Hbs self) as (e' & He' & _ & Hacc).
  assert (e' = e) as -> by congruence.
  destruct (zip_cat bs Hbs) as [Hzip Hlen].
  split_and!; [done..| |].
  - intros k Hk. rewrite Hacc, length_app, batch_values_length by done.
    rewrite <- Hzip, length_zip_with. lia.
  - intros k Hk. by rewrite Hacc, batch_values_other, app_nil_r.
Qed.

Lemma accumulators_grow_together_witness :
  ∃ e, process_batches example_batches (init None true) = Ok e
     ∧ ks e = ks (init None true) ∧ filtered e = filtered (init None true)
     ∧ (∀ k, k ∈ [RANK_BEST; RANK_WORST; RANK_AVERAGE; RANK_AVERAGE_ADJUSTED] →
          length (accumulated e k)
          = (length (accumulated (init None true) k)
             + length (cat_true_scores example_batches))%nat)
     ∧ (∀ k, k ∉ [RANK_BEST; RANK_WORST; RANK_AVERAGE; RANK_AVERAGE_ADJUSTED] →
          accumulated e k = accumulated (init None true) k).
Proof.
  eexists. split; [reflexivity|].
  apply (accumulators_grow_together (init None true) _ example_batches);
    [repeat constructor|reflexivity].
Defined.

Lemma dom_foldl_insert {V} (g : Z → V) (l : list Z) (d : gmap Z V) :
  dom (foldl (λ (d : gmap Z V) k, <[k := g k]> d) d l)
  = (list_to_set l ∪ dom d : gset Z).
Proof.
  revert d. induction l as [|x l IH]; intros d; cbn [foldl].
  - by rewrite list_to_set_nil, (left_id_L ∅ (∪)).
  - rewrite IH, dom_insert_L, list_to_set_cons.
    by rewrite (assoc_L (∪)), (comm_L (∪) (list_to_set l) {[x]}).
Qed.

(** The result of [finalize] has a mean rank, a mean reciprocal rank and a
    hits dictionary for exactly the rank kinds best, worst and avg, and every
    hits dictionary has exactly the configured values of k as its keys. *)
Theorem finalize_result_keys (self : RankBasedEvaluator) :
  let r := (finalize self).1 in
  dom (mean_rank r) = (list_to_set RANK_TYPES : gset string)
  ∧ dom (mean_reciprocal_rank r) = (list_to_set RANK_TYPES : gset string)
  ∧ dom (hits_at_k r) = (list_to_set RANK_TYPES : gset string)
  ∧ ∀ rank_type h, hits_at_k r !! rank_type = Some h →
      dom h = (list_to_set (ks self) : gset Z).
Proof.
  cbn zeta. unfold finalize, RANK_TYPES. cbn -[np_mean np_mean_le np_asarray].
  assert (∀ (a b c : string),
            ({[a]} ∪ ({[b]} ∪ ({[c]} ∪ ∅)) : gset string)
            = {[c]} ∪ ({[b]} ∪ ({[a]} ∪ ∅))) as Hsets.
  { intros a b c. apply set_eq. intros y.
    rewrite !elem_of_union, !elem_of_singleton. tauto. }
  split_and!; [by rewrite !dom_insert_L, dom_empty_L, Hsets..|].
  intros rank_type h Hh.
  repeat (apply lookup_insert_Some in Hh as [[_ <-]|[_ Hh]];
          [by rewrite dom_foldl_insert, dom_empty_L, (right_id_L ∅ (∪))|]).
  by rewrite lookup_empty in Hh.
Qed.

(** * Further properties of [RankBasedMetricResults] *)

Lemma finalize_lookups (self : RankBasedEvaluator) (rank_type : string) :
  rank_type ∈ RANK_TYPES →
  let r := (finalize self).1 in
  let a := np_asarray (ranks self !! rank_type) in
  mean_rank r !! rank_type = Some (np_mean a)
  ∧ mean_reciprocal_rank r !! rank_type = Some (np_mean (np_reciprocal a))
  ∧ hits_at_k r !! rank_type
    = Some (foldl (λ (d : gmap Z fnum) k, <[k := np_mean_le a k]> d)
              ∅ (ks self)).
Proof.
  intros Hin. unfold RANK_TYPES in Hin.
  repeat (apply elem_of_cons in Hin as [->|Hin]);
    [..|by apply elem_of_nil in Hin]; by split_and!.
Qed.

Lemma get_metric_hits_after_finalize (self : RankBasedEvaluator)
    (rank_type : string) (k : Z) :
  rank_type ∈ RANK_TYPES →
  get_metric (finalize self).1 (rank_type +:+ ".hits_at_" +:+ str_of_int k)
  = (if decide (k ∈ ks self)
     then Ok (np_mean_le (np_asarray (ranks self !! rank_type)) k)
     else Raise KeyError).
Proof.
  intros Hin.
  destruct (finalize_lookups self rank_type Hin) as (_ & _ & Hh).
  rewrite get_metric_hits_key by done. unfold getitem. rewrite Hh.
  cbn [mbind result_bind].
  rewrite foldl_insert_lookup, lookup_empty.
  by destruct (decide (k ∈ ks self)).
Qed.

(** Reading the result of [finalize]: for each of best, worst and avg,
    [get_metric] returns the mean of the accumulated ranks and the mean of
    their reciprocals; a hits-at-k name returns the mean of [rank <= k] when
    [k] was configured and raises [KeyError] when it was not; and
    [adjusted_mean_rank] is the mean of the accumulated adjusted ranks. *)
Theorem get_metric_after_finalize (self : RankBasedEvaluator)
    (rank_type : string) (k : Z) :
  rank_type ∈ RANK_TYPES →
  let r := (finalize self).1 in
  let a := np_asarray (ranks self !! rank_type) in
  get_metric r (rank_type +:+ ".mean_rank") = Ok (np_mean a)
  ∧ get_metric r (rank_type +:+ ".mean_reciprocal_rank")
    = Ok (np_mean (np_reciprocal a))
  ∧ get_metric r (rank_type +:+ ".hits_at_" +:+ str_of_int k)
    = (if decide (k ∈ ks self) then Ok (np_mean_le a k) else Raise KeyError)
  ∧ get_metric r "adjusted_mean_rank"
    = Ok (np_mean (np_asarray (ranks self !! RANK_AVERAGE_ADJUSTED))).
Proof.
  intros Hin. cbn zeta.
  destruct (finalize_lookups self rank_type Hin) as (Hmr & Hmrr & _).
  split_and!.
  - rewrite get_metric_mean_rank_key by done. unfold getitem. by rewrite Hmr.
  - rewrite get_metric_mean_reciprocal_rank_key by done.
    unfold getitem. by rewrite Hmrr.
  - by apply get_metric_hits_after_finalize.
  - reflexivity.
Qed.

Lemma get_metric_after_finalize_witness :
  let self := init None true in
  let r := (finalize self).1 in
  let a := np_asarray (ranks self !! RANK_WORST) in
  get_metric r (RANK_WORST +:+ ".mean_rank") = Ok (np_mean a)
  ∧ get_metric r (RANK_WORST +:+ ".mean_reciprocal_rank")
    = Ok (np_mean (np_reciprocal a))
  ∧ get_metric r (RANK_WORST +:+ ".hits_at_" +:+ str_of_int 7)
    = (if decide (7 ∈ ks self) then Ok (np_mean_le a 7) else Raise KeyError)
  ∧ get_metric r "adjusted_mean_rank"
    = Ok (np_mean (np_asarray (ranks self !! RANK_AVERAGE_ADJUSTED))).
Proof.
  apply (get_metric_after_finalize (init None true) RANK_WORST 7).
  unfold RANK_TYPES. apply elem_of_cons. right. constructor.
Defined.

(** *** Names *)

Lemma hits_lookup_name (name name' metric : string) (h : gmap Z fnum) :
  hits_lookup ["hits_at_"; "hits@"] name metric h
  = hits_lookup ["hits_at_"; "hits@"] name' metric h
  ∨ (hits_lookup ["hits_at_"; "hits@"] name metric h
     = Raise (ValueError ("Invalid metric name: " +:+ name))
     ∧ hits_lookup ["hits_at_"; "hits@"] name' metric h
       = Raise (ValueError ("Invalid metric name: " +:+ name'))).
Proof.
  cbn [hits_lookup].
  destruct (startswith metric "hits_at_"); cbn [negb]; [by left|].
  destruct (startswith metric "hits@"); cbn [negb]; [by left|].
  by right.
Qed.

Lemma get_metric_undotted (self : RankBasedMetricResults) (name : string) :
  str_count name "." = 0%nat → name ≠ "adjusted_mean_rank" →
  get_metric self name
  = if String.eqb name "mean_rank"
    then getitem (mean_rank self) "avg"
    else if String.eqb name "mean_reciprocal_rank"
    then getitem (mean_reciprocal_rank self) "avg"
    else
      getitem (hits_at_k self) "avg"
        ≫= hits_lookup ["hits_at_"; "hits@"] name name.
Proof.
  intros Hdots Hname. unfold get_metric.
  destruct (String.eqb_spec name "adjusted_mean_rank"); [done|].
  by rewrite Hdots.
Qed.

(** A name without a dot is read with the rank kind avg: [get_metric]
    returns a value for it exactly when it returns that value for the name
    prefixed with [avg.], and it raises a [KeyError], or a [ValueError], for
    the one exactly when it does for the other. *)
Theorem get_metric_default_rank_kind (self : RankBasedMetricResults)
    (name : string) :
  str_count name "." = 0%nat → name ≠ "adjusted_mean_rank" →
  (∀ v, get_metric self name = Ok v
        ↔ get_metric self ("avg." +:+ name) = Ok v)
  ∧ (get_metric self name = Raise KeyError
     ↔ get_metric self ("avg." +:+ name) = Raise KeyError)
  ∧ (is_ValueError (get_metric self name)
     ↔ is_ValueError (get_metric self ("avg." +:+ name))).
Proof.
  intros Hdots Hname.
  rewrite (get_metric_undotted self name Hdots Hname).
  change ("avg." +:+ name) with ("avg" +:+ String "." name).
  rewrite (get_metric_dotted self "avg" name) by done.
  destruct (String.eqb name "mean_rank"); [done|].
  destruct (String.eqb name "mean_reciprocal_rank"); [done|].
  destruct (getitem (hits_at_k self) "avg") as [h|]; [|done].
  cbn [mbind result_bind].
  destruct (hits_lookup_name name ("avg" +:+ String "." name) name h)
    as [->|[-> ->]]; [done|].
  unfold is_ValueError. split_and!; [done|done|].
  split; intros _; by eexists.
Qed.

Lemma get_metric_default_rank_kind_witness :
  (∀ v, get_metric example_results "hits@1" = Ok v
        ↔ get_metric example_results ("avg." +:+ "hits@1") = Ok v)
  ∧ (get_metric example_results "hits@1" = Raise KeyError
     ↔ get_metric example_results ("avg." +:+ "hits@1") = Raise KeyError)
  ∧ (is_ValueError (get_metric example_results "hits@1")
     ↔ is_ValueError (get_metric example_results ("avg." +:+ "hits@1"))).
Proof.
  apply (get_metric_default_rank_kind example_results "hits@1");
    [reflexivity|discriminate].
Defined.

(** The two spellings of a hits-at-k designator are interchangeable: with
    a rank kind of best, worst or avg and a suffix without a dot,
    [get_metric] gives the same result, value or exception, for
    [hits@<k>] as for [hits_at_<k>]. *)
Theorem get_metric_hits_spellings (self : RankBasedMetricResults)
    (rank_type k : string) :
  rank_type ∈ RANK_TYPES → str_count k "." = 0%nat →
  get_metric self (rank_type +:+ ".hits@" +:+ k)
  = get_metric self (rank_type +:+ ".hits_at_" +:+ k).
Proof.
  intros Hrt Hk.
  change (rank_type +:+ ".hits@" +:+ k)
    with (rank_type +:+ String "." ("hits@" +:+ k)).
  change (rank_type +:+ ".hits_at_" +:+ k)
    with (rank_type +:+ String "." ("hits_at_" +:+ k)).
  rewrite (get_metric_dotted self rank_type ("hits@" +:+ k));
    [|by apply RANK_TYPES_no_dot|by rewrite str_count_app, Hk
     |by apply in_RANK_TYPES_spec].
  rewrite (get_metric_dotted self rank_type ("hits_at_" +:+ k));
    [|by apply RANK_TYPES_no_dot|by rewrite str_count_app, Hk
     |by apply in_RANK_TYPES_spec].
  change (String.eqb ("hits@" +:+ k) "mean_rank") with false.
  change (String.eqb ("hits@" +:+ k) "mean_reciprocal_rank") with false.
  change (String.eqb ("hits_at_" +:+ k) "mean_rank") with false.
  change (String.eqb ("hits_at_" +:+ k) "mean_reciprocal_rank") with false.
  cbv iota. destruct (getitem (hits_at_k self) rank_type) as [h|]; [|done].
  cbn [mbind result_bind hits_lookup].
  change (startswith ("hits@" +:+ k) "hits_at_") with false.
  rewrite !startswith_app. cbn [negb]. by rewrite !str_drop_app.
Qed.

Lemma get_metric_hits_spellings_witness :
  get_metric example_results (RANK_BEST +:+ ".hits@" +:+ "1")
  = get_metric example_results (RANK_BEST +:+ ".hits_at_" +:+ "1").
Proof.
  apply (get_metric_hits_spellings example_results RANK_BEST "1");
    [constructor|reflexivity].
Defined.

(** *** The flat dictionary *)

Lemma to_flat_dict_body_cases (self : RankBasedMetricResults)
    (r : gmap string fnum) (rank_type : string) :
  (rank_kind_complete self rank_type
   ∧ ∃ r', to_flat_dict_body self r rank_type = Ok r')
  ∨ (¬ rank_kind_complete self rank_type
     ∧ to_flat_dict_body self r rank_type = Raise KeyError).
Proof.
  unfold to_flat_dict_body, rank_kind_complete, getitem.
  destruct (mean_rank self !! rank_type) as [mr|];
    [|right; split; [intros ([? [=]] & _)|done]].
  destruct (mean_reciprocal_rank self !! rank_type) as [mrr|];
    [|right; split; [intros (_ & [? [=]] & _)|done]].
  destruct (hits_at_k self !! rank_type) as [h|];
    [|right; split; [intros (_ & _ & [? [=]])|done]].
  left. split; [by split_and!|]. by eexists.
Qed.

Lemma for_each_body_cases (self : RankBasedMetricResults)
    (l : list string) (r : gmap string fnum) :
  ((∀ rank_type, rank_type ∈ l → rank_kind_complete self rank_type)
   ∧ ∃ d, for_each (to_flat_dict_body self) l r = Ok d)
  ∨ (¬ (∀ rank_type, rank_type ∈ l → rank_kind_complete self rank_type)
     ∧ for_each (to_flat_dict_body self) l r = Raise KeyError).
Proof.
  revert r. induction l as [|rank_type l IH]; intros r; cbn [for_each].
  { left. split; [by intros ? ?%elem_of_nil|by eexists]. }
  destruct (to_flat_dict_body_cases self r rank_type)
    as [[Hc [r' ->]]|[Hc ->]]; cbn [mbind result_bind].
  - destruct (IH r') as [[Hall [d ->]]|[Hall ->]].
    + left. split; [|by eexists].
      intros rt [->|?]%elem_of_cons; auto.
    + right. split; [|done]. intros H. apply Hall.
      intros rt Hrt. apply H. by constructor.
  - right. split; [|done]. intros H. apply Hc, H. constructor.
Qed.

(** [to_flat_dict] returns a dictionary exactly when the result has a mean
    rank, a mean reciprocal rank and a hits dictionary for each of best,
    worst and avg; otherwise it raises [KeyError], and it raises nothing
    else. *)
Theorem to_flat_dict_outcome (self : RankBasedMetricResults) :
  (results_complete self ∧ ∃ d, to_flat_dict self = Ok d)
  ∨ (¬ results_complete self ∧ to_flat_dict self = Raise KeyError).
Proof. apply for_each_body_cases. Qed.

Lemma flat_entry_rank_kind (self : RankBasedMetricResults)
    (key : string) (v : fnum) :
  flat_entry self key v
  ↔ (key = "avg.adjusted_mean_rank" ∧ v = adjusted_mean_rank self)
    ∨ ∃ rank_type, rank_type ∈ RANK_TYPES
                 ∧ rank_kind_entry self rank_type key v.
Proof. reflexivity. Qed.

Lemma rank_kind_entry_get_metric (self : RankBasedMetricResults)
    (rank_type key : string) (v : fnum) :
  rank_type ∈ RANK_TYPES → rank_kind_entry self rank_type key v →
  key ≠ "avg.adjusted_mean_rank" ∧ get_metric self key = Ok v.
Proof.
  intros Hrt Hentry. split.
  - intros ->. unfold RANK_TYPES in Hrt.
    repeat (apply elem_of_cons in Hrt as [->|Hrt]);
      [..|by apply elem_of_nil in Hrt].
    all: destruct Hentry as [[Hk _]|[[Hk _]|(h & k & Hk & _)]];
      discriminate Hk.
  - destruct Hentry as [[-> Hv]|[[-> Hv]|(h & k & -> & Hh & Hv)]].
    + rewrite get_metric_mean_rank_key by done. by apply getitem_Ok.
    + rewrite get_metric_mean_reciprocal_rank_key by done. by apply getitem_Ok.
    + rewrite get_metric_hits_key by done.
      apply getitem_Ok in Hh. rewrite Hh. cbn. by apply getitem_Ok.
Qed.

Lemma flat_entry_functional (self : RankBasedMetricResults)
    (key : string) (v v' : fnum) :
  flat_entry self key v → flat_entry self key v' → v = v'.
Proof.
  intros [[-> ->]|(rt & Hrt & He)]%flat_entry_rank_kind
         [[Hk ->]|(rt' & Hrt' & He')]%flat_entry_rank_kind.
  - done.
  - by destruct (rank_kind_entry_get_metric self rt' _ v' Hrt' He').
  - subst key. by destruct (rank_kind_entry_get_metric self rt _ v Hrt He).
  - destruct (rank_kind_entry_get_metric self rt key v Hrt He) as [_ Hv].
    destruct (rank_kind_entry_get_metric self rt' key v' Hrt' He') as [_ Hv'].
    congruence.
Qed.

Lemma foldl_insert_present {X} (f : X → string) (g : X → fnum) (l : list X)
    (r : gmap string fnum) (key : string) :
  is_Some (r !! key) ∨ (∃ x, x ∈ l ∧ f x = key) →
  is_Some (foldl (λ (r : gmap string fnum) x, <[f x := g x]> r) r l !! key).
Proof.
  revert r. induction l as [|x l IH]; intros r; cbn [foldl].
  { intros [?|(x & []%elem_of_nil & _)]. done. }
  intros H. apply IH.
  destruct (decide (f x = key)) as [<-|Hne].
  { left. rewrite lookup_insert_eq. by eexists. }
  destruct H as [H|(y & [->|Hy]%elem_of_cons & Hfy)]; [|done|by eauto].
  left. by rewrite lookup_insert_ne.
Qed.

Lemma to_flat_dict_body_present (self : RankBasedMetricResults)
    (r r' : gmap string fnum) (rank_type key : string) :
  to_flat_dict_body self r rank_type = Ok r' →
  is_Some (r !! key) ∨ (∃ v, rank_kind_entry self rank_type key v) →
  is_Some (r' !! key).
Proof.
  unfold to_flat_dict_body.
  destruct (getitem (mean_rank self) rank_type) as [mr|] eqn:Hmr; [|done].
  destruct (getitem (mean_reciprocal_rank self) rank_type) as [mrr|] eqn:Hmrr;
    [|done].
  destruct (getitem (hits_at_k self) rank_type) as [h|] eqn:Hh; [|done].
  apply getitem_Ok in Hmr, Hmrr, Hh.
  cbn [mbind result_bind mret result_ret]. intros [= <-] Hkey.
  apply (foldl_insert_present
           (λ kv : Z * fnum, rank_type +:+ ".hits_at_" +:+ str_of_int kv.1)
           (λ kv, kv.2)).
  destruct Hkey as [Hr|(v & [[-> _]|[[-> _]|(h' & k & -> & Hh' & Hv)]])].
  - left.
    destruct (decide (rank_type +:+ ".mean_reciprocal_rank" = key)) as [<-|?];
      [rewrite lookup_insert_eq; by eexists|rewrite lookup_insert_ne by done].
    destruct (decide (rank_type +:+ ".mean_rank" = key)) as [<-|?];
      [rewrite lookup_insert_eq; by eexists|by rewrite lookup_insert_ne].
  - left.
    destruct (decide (rank_type +:+ ".mean_reciprocal_rank"
                      = rank_type +:+ ".mean_rank")) as [<-|?];
      [rewrite lookup_insert_eq; by eexists|rewrite lookup_insert_ne by done].
    rewrite lookup_insert_eq. by eexists.
  - left. rewrite lookup_insert_eq. by eexists.
  - right. exists (k, v). split; [|done].
    apply elem_of_map_to_list. congruence.
Qed.

Lemma for_each_present (self : RankBasedMetricResults)
    (l : list string) (r d : gmap string fnum) (key : string) :
  for_each (to_flat_dict_body self) l r = Ok d →
  is_Some (r !! key)
  ∨ (∃ rank_type v, rank_type ∈ l ∧ rank_kind_entry self rank_type key v) →
  is_Some (d !! key).
Proof.
  revert r. induction l as [|rank_type l IH]; intros r; cbn [for_each].
  { intros [= <-] [?|(rt & v & []%elem_of_nil & _)]. done. }
  destruct (to_flat_dict_body self r rank_type) as [r'|] eqn:Hbody; [|done].
  cbn [mbind result_bind]. intros Hd Hkey. apply (IH r' Hd).
  destruct Hkey as [Hr|(rt & v & [->|Hrt]%elem_of_cons & He)].
  - left. eapply to_flat_dict_body_present; eauto.
  - left. eapply to_flat_dict_body_present; eauto.
  - right. eauto.
Qed.

Lemma to_flat_dict_complete (self : RankBasedMetricResults)
    (d : gmap string fnum) (key : string) (v : fnum) :
  to_flat_dict self = Ok d → flat_entry self key v → d !! key = Some v.
Proof.
  intros Hd Hentry.
  assert (is_Some (d !! key)) as [v' Hv'].
  { apply (for_each_present self RANK_TYPES _ d key Hd).
    apply flat_entry_rank_kind in Hentry as [[-> _]|(rt & Hrt & He)].
    - left. rewrite lookup_singleton_eq. by eexists.
    - right. eauto. }
  rewrite Hv'. f_equal.
  apply (flat_entry_functional self key); [|done].
  by apply (to_flat_dict_entries self d Hd).
Qed.

(** The flat dictionary holds exactly these entries: the adjusted mean rank
    under [avg.adjusted_mean_rank] and, for each of best, worst and avg, the
    mean rank under [<kind>.mean_rank], the mean reciprocal rank under
    [<kind>.mean_reciprocal_rank] and every hits value under
    [<kind>.hits_at_<k>]. *)
Theorem to_flat_dict_lookup (self : RankBasedMetricResults)
    (d : gmap string fnum) (key : string) (v : fnum) :
  to_flat_dict self = Ok d →
  d !! key = Some v ↔ flat_entry self key v.
Proof.
  intros Hd. split.
  - by apply to_flat_dict_entries.
  - by apply to_flat_dict_complete.
Qed.

Lemma to_flat_dict_lookup_witness :
  ∃ d, to_flat_dict example_results = Ok d
     ∧ (d !! "worst.hits_at_1" = Some (FFin (1 # 2))
        ↔ flat_entry example_results "worst.hits_at_1" (FFin (1 # 2))).
Proof.
  eexists. split; [reflexivity|].
  apply (to_flat_dict_lookup example_results). reflexivity.
Defined.

Lemma finalize_results_complete (self : RankBasedEvaluator) :
  results_complete (finalize self).1.
Proof.
  intros rank_type Hrt.
  destruct (finalize_lookups self rank_type Hrt) as (Hmr & Hmrr & Hh).
  unfold rank_kind_complete. rewrite Hmr, Hmrr, Hh. by split_and!.
Qed.

(** The flat dictionary of a result of [finalize] is always produced, and it
    holds the adjusted mean rank and, for each of best, worst and avg, the
    mean rank, the mean reciprocal rank and the hits value of every
    configured k. *)
Theorem to_flat_dict_after_finalize (self : RankBasedEvaluator) :
  ∃ d, to_flat_dict (finalize self).1 = Ok d
     ∧ d !! "avg.adjusted_mean_rank"
       = Some (np_mean (np_asarray (ranks self !! RANK_AVERAGE_ADJUSTED)))
     ∧ ∀ rank_type, rank_type ∈ RANK_TYPES →
         let a := np_asarray (ranks self !! rank_type) in
         d !! (rank_type +:+ ".mean_rank") = Some (np_mean a)
         ∧ d !! (rank_type +:+ ".mean_reciprocal_rank")
           = Some (np_mean (np_reciprocal a))
         ∧ ∀ k, k ∈ ks self →
             d !! (rank_type +:+ ".hits_at_" +:+ str_of_int k)
             = Some (np_mean_le a k).
Proof.
  destruct (for_each_body_cases (finalize self).1 RANK_TYPES
              ({[ "avg.adjusted_mean_rank"
                  := adjusted_mean_rank (finalize self).1 ]}))
    as [[_ [d Hd]]|[Hc _]];
    [|destruct Hc; apply finalize_results_complete].
  change (to_flat_dict (finalize self).1 = Ok d) in Hd.
  exists d. split; [done|]. split.
  - apply (to_flat_dict_complete _ d _ _ Hd). by left.
  - intros rank_type Hrt. cbn zeta.
    destruct (finalize_lookups self rank_type Hrt) as (Hmr & Hmrr & Hh).
    split_and!.
    + apply (to_flat_dict_complete _ d _ _ Hd). right.
      exists rank_type. split; [done|]. by left.
    + apply (to_flat_dict_complete _ d _ _ Hd). right.
      exists rank_type. split; [done|]. right. by left.
    + intros k Hk. apply (to_flat_dict_complete _ d _ _ Hd). right.
      exists rank_type. split; [done|]. right. right.
      eexists _, k. split; [done|]. split; [exact Hh|].
      rewrite foldl_insert_lookup. by rewrite decide_True.
Qed.

(** * Aggregates *)

Lemma foldl_fadd_fin (l : list Q) (a : Q) :
  ∃ q, foldl fadd (FFin a) (FFin <$> l) = FFin q ∧ (q == a + qsum l)%Q.
Proof.
  revert a. induction l as [|x l IH]; intros a; cbn [fmap list_fmap foldl qsum].
  - exists a. split; [done|]. ring.
  - change (list_fmap _ _ ?f l) with (f <$> l). cbn [fadd].
    destruct (IH (Qred (a + x))) as (q & -> & Hq).
    exists q. split; [done|]. rewrite Hq, Qred_correct. ring.
Qed.

Lemma inject_Z_length_pos {X} (l : list X) :
  l ≠ [] → (0 < inject_Z (Z.of_nat (length l)))%Q.
Proof.
  intros Hl. destruct l; [done|]. unfold Qlt, inject_Z; cbn. lia.
Qed.

(** The mean of finite values is their sum divided by their number. *)
Lemma np_mean_fin (l : list Q) :
  l ≠ [] →
  ∃ q, np_mean (FFin <$> l) = FFin q
     ∧ (q == qsum l / inject_Z (Z.of_nat (length l)))%Q.
Proof.
  intros Hl. unfold np_mean, fzero, float_of_Z.
  destruct (foldl_fadd_fin l 0) as (s & -> & Hs).
  rewrite length_fmap. pose proof (inject_Z_length_pos l Hl) as Hn.
  unfold fdiv.
  assert (Qeq_bool (inject_Z (Z.of_nat (length l))) 0 = false) as ->.
  { apply not_true_is_false. intros H%Qeq_bool_iff.
    rewrite H in Hn. by apply Qlt_irrefl in Hn. }
  eexists; split; [reflexivity|].
  rewrite Qred_correct, Hs. by rewrite Qplus_0_l.
Qed.

Lemma qsum_le {X} (f g : X → Q) (l : list X) :
  Forall (λ x, (f x <= g x)%Q) l → (qsum (f <$> l) <= qsum (g <$> l))%Q.
Proof.
  induction 1 as [|x l Hx _ IH]; cbn [fmap list_fmap qsum].
  - apply Qle_refl.
  - by apply Qplus_le_compat.
Qed.

Lemma qsum_const {X} (c : Q) (l : list X) :
  (qsum ((λ _, c) <$> l) == c * inject_Z (Z.of_nat (length l)))%Q.
Proof.
  induction l as [|x l IH]; cbn [fmap list_fmap qsum length].
  - ring.
  - change (list_fmap _ _ ?f l) with (f <$> l). rewrite IH.
    rewrite Nat2Z.inj_succ. unfold Z.succ. rewrite inject_Z_plus. ring.
Qed.

Lemma Qdiv_le_compat (a b n : Q) :
  (0 < n)%Q → (a <= b)%Q → (a / n <= b / n)%Q.
Proof.
  intros Hn Hab. unfold Qdiv. apply Qmult_le_compat_r; [done|].
  apply Qlt_le_weak, Qinv_lt_0_compat, Hn.
Qed.

Lemma count_le_qsum (a : list fnum) (k : Z) :
  (λ r, if fleb r (float_of_Z k) then fone else fzero) <$> a
  = FFin <$> ((λ r, if fleb r (float_of_Z k) then 1%Q else 0%Q) <$> a)
  ∧ (qsum ((λ r, if fleb r (float_of_Z k) then 1%Q else 0%Q) <$> a)
     == inject_Z (count_le a k))%Q.
Proof.
  unfold count_le. induction a as [|r a [IH1 IH2]]; [done|].
  cbn [fmap list_fmap qsum count_true].
  change (list_fmap _ _ ?f a) with (f <$> a). split.
  - rewrite IH1. by destruct (fleb r (float_of_Z k)).
  - rewrite IH2, inject_Z_plus. by destruct (fleb r (float_of_Z k)).
Qed.

Lemma count_le_bounds (a : list fnum) (k : Z) :
  0 ≤ count_le a k ≤ Z.of_nat (length a).
Proof.
  unfold count_le. split; [apply count_true_nonneg|].
  pose proof (count_true_le_length ((λ r, fleb r (float_of_Z k)) <$> a)) as H.
  by rewrite length_fmap in H.
Qed.

Lemma np_mean_le_fraction (a : list fnum) (k : Z) :
  a ≠ [] →
  ∃ q, np_mean_le a k = FFin q
     ∧ (q == inject_Z (count_le a k) / inject_Z (Z.of_nat (length a)))%Q.
Proof.
  intros Ha. unfold np_mean_le.
  destruct (count_le_qsum a k) as [-> Hsum].
  destruct (np_mean_fin ((λ r, if fleb r (float_of_Z k) then 1%Q else 0%Q)
                           <$> a)) as (q & -> & Hq).
  { by destruct a. }
  exists q. split; [done|]. by rewrite Hq, Hsum, length_fmap.
Qed.

(** After [finalize], the hits-at-k value of a rank kind with at least one
    accumulated rank is the number of accumulated ranks that are at most
    [k] divided by the number of accumulated ranks, a number between 0 and
    1. *)
Theorem hits_at_k_is_fraction (self : RankBasedEvaluator)
    (rank_type : string) (l : list pyval) (k : Z) :
  rank_type ∈ RANK_TYPES →
  ranks self !! rank_type = Some l → l ≠ [] → k ∈ ks self →
  ∃ q, get_metric (finalize self).1
         (rank_type +:+ ".hits_at_" +:+ str_of_int k) = Ok (FFin q)
     ∧ (q == inject_Z (count_le (float_of_pyval <$> l) k)
             / inject_Z (Z.of_nat (length l)))%Q
     ∧ (0 <= q)%Q ∧ (q <= 1)%Q.
Proof.
  intros Hrt Hl Hne Hk.
  rewrite (get_metric_hits_after_finalize self rank_type k Hrt).
  rewrite decide_True, Hl by done. cbn [np_asarray].
  destruct (np_mean_le_fraction (float_of_pyval <$> l) k) as (q & -> & Hq).
  { by destruct l. }
  rewrite length_fmap in Hq. exists q. split; [done|]. split; [done|].
  pose proof (count_le_bounds (float_of_pyval <$> l) k) as [Hlo Hhi].
  rewrite length_fmap in Hhi.
  pose proof (inject_Z_length_pos l Hne) as Hn.
  rewrite Hq. split.
  - apply Qle_shift_div_l; [done|]. rewrite Qmult_0_l.
    unfold Qle, inject_Z; cbn. lia.
  - apply Qle_shift_div_r; [done|]. rewrite Qmult_1_l.
    unfold Qle, inject_Z; cbn. lia.
Qed.

Lemma hits_at_k_is_fraction_witness :
  ∃ q, get_metric (finalize example_evaluator).1
         (RANK_BEST +:+ ".hits_at_" +:+ str_of_int 1) = Ok (FFin q)
     ∧ (q == inject_Z (count_le (float_of_pyval <$> [PyInt 1; PyInt 2]) 1)
             / inject_Z (Z.of_nat (length [PyInt 1; PyInt 2])))%Q
     ∧ (0 <= q)%Q ∧ (q <= 1)%Q.
Proof.
  apply (hits_at_k_is_fraction example_evaluator RANK_BEST
           [PyInt 1; PyInt 2] 1).
  - constructor.
  - vm_compute. reflexivity.
  - discriminate.
  - constructor.
Defined.

Lemma fleb_float_of_Z_mono (r : fnum) (k k' : Z) :
  k ≤ k' → fleb r (float_of_Z k) = true → fleb r (float_of_Z k') = true.
Proof.
  intros Hk. destruct r as [|[]|q]; cbn; [done..|].
  rewrite !Qle_bool_iff. intros Hq. eapply Qle_trans; [exact Hq|].
  unfold Qle, inject_Z; cbn. lia.
Qed.

Lemma count_le_mono (a : list fnum) (k k' : Z) :
  k ≤ k' → count_le a k ≤ count_le a k'.
Proof.
  intros Hk. unfold count_le.
  induction a as [|r a IH]; [done|]. cbn [fmap list_fmap count_true].
  change (list_fmap _ _ ?f a) with (f <$> a).
  destruct (fleb r (float_of_Z k)) eqn:Hr.
  - rewrite (fleb_float_of_Z_mono r k k' Hk Hr). lia.
  - destruct (fleb r (float_of_Z k')); lia.
Qed.

(** Hits-at-k grows with k: for two configured values [k <= k'], the hits
    value at [k] is at most the hits value at [k']. *)
Theorem hits_at_k_monotone (self : RankBasedEvaluator)
    (rank_type : string) (l : list pyval) (k k' : Z) :
  rank_type ∈ RANK_TYPES →
  ranks self !! rank_type = Some l → l ≠ [] →
  k ∈ ks self → k' ∈ ks self → k ≤ k' →
  ∃ q q',
    get_metric (finalize self).1
      (rank_type +:+ ".hits_at_" +:+ str_of_int k) = Ok (FFin q)
    ∧ get_metric (finalize self).1
        (rank_type +:+ ".hits_at_" +:+ str_of_int k') = Ok (FFin q')
    ∧ (q <= q')%Q.
Proof.
  intros Hrt Hl Hne Hk Hk' Hle.
  rewrite !(get_metric_hits_after_finalize self rank_type) by done.
  rewrite !decide_True, Hl by done. cbn [np_asarray].
  assert (float_of_pyval <$> l ≠ []) as Hne' by (by destruct l).
  destruct (np_mean_le_fraction (float_of_pyval <$> l) k Hne') as (q & -> & Hq).
  destruct (np_mean_le_fraction (float_of_pyval <$> l) k' Hne')
    as (q' & -> & Hq').
  exists q, q'. split; [done|]. split; [done|].
  rewrite Hq, Hq'. apply Qdiv_le_compat.
  - by apply inject_Z_length_pos.
  - pose proof (count_le_mono (float_of_pyval <$> l) k k' Hle).
    unfold Qle, inject_Z; cbn. lia.
Qed.

Lemma hits_at_k_monotone_witness :
  ∃ q q',
    get_metric (finalize example_evaluator).1
      (RANK_BEST +:+ ".hits_at_" +:+ str_of_int 1) = Ok (FFin q)
    ∧ get_metric (finalize example_evaluator).1
        (RANK_BEST +:+ ".hits_at_" +:+ str_of_int 3) = Ok (FFin q')
    ∧ (q <= q')%Q.
Proof.
  apply (hits_at_k_monotone example_evaluator RANK_BEST
           [PyInt 1; PyInt 2] 1 3).
  - constructor.
  - vm_compute. reflexivity.
  - discriminate.
  - constructor.
  - apply elem_of_cons. right. constructor.
  - lia.
Defined.

(** *** Mean ranks *)

Lemma accumulated_init (ks0 : option (list Z)) (flt : bool) (k : string) :
  accumulated (init ks0 flt) k = [].
Proof. unfold accumulated, init; cbn. by rewrite lookup_empty. Qed.

Lemma get_metric_mean_rank_accumulated (self : RankBasedEvaluator)
    (rank_type : string) :
  rank_type ∈ RANK_TYPES →
  get_metric (finalize self).1 (rank_type +:+ ".mean_rank")
  = Ok (np_mean (float_of_pyval <$> accumulated self rank_type)).
Proof.
  intros Hrt. destruct (finalize_lookups self rank_type Hrt) as (Hmr & _).
  rewrite get_metric_mean_rank_key by done. unfold getitem. rewrite Hmr.
  by rewrite np_mean_asarray.
Qed.

Lemma batch_values_best (rows : list (score * list score)) :
  float_of_pyval <$> batch_values RANK_BEST rows = FFin <$> (qbest <$> rows).
Proof.
  unfold batch_values, ranks_of_rows; cbn [dict_get String.eqb from_option].
  change (String.eqb RANK_BEST RANK_BEST) with true. cbn [tolist from_option].
  rewrite <- !list_fmap_compose. by apply list_fmap_ext.
Qed.

Lemma batch_values_worst (rows : list (score * list score)) :
  float_of_pyval <$> batch_values RANK_WORST rows = FFin <$> (qworst <$> rows).
Proof.
  unfold batch_values, ranks_of_rows; cbn [dict_get].
  change (String.eqb RANK_BEST RANK_WORST) with false.
  change (String.eqb RANK_WORST RANK_WORST) with true. cbn [tolist from_option].
  rewrite <- !list_fmap_compose. by apply list_fmap_ext.
Qed.

Lemma batch_values_avg (rows : list (score * list score)) :
  float_of_pyval <$> batch_values RANK_AVERAGE rows = FFin <$> (qavg <$> rows).
Proof.
  unfold batch_values, ranks_of_rows; cbn [dict_get].
  change (String.eqb RANK_BEST RANK_AVERAGE) with false.
  change (String.eqb RANK_WORST RANK_AVERAGE) with false.
  change (String.eqb RANK_AVERAGE RANK_AVERAGE) with true.
  cbn [tolist from_option].
  rewrite <- !list_fmap_compose. by apply list_fmap_ext.
Qed.

Lemma qranks_ordered (p : score * list score) :
  true_score_among p.1 p.2 →
  (1 <= qbest p)%Q ∧ (qbest p <= qavg p)%Q ∧ (qavg p <= qworst p)%Q.
Proof.
  intros Hp. unfold qbest, qavg, qworst.
  pose proof (best_rank_row_pos p.1 p.2) as Hb.
  pose proof (best_le_worst_row p.1 p.2 Hp) as Hbw.
  split; [unfold Qle, inject_Z; cbn; lia|].
  rewrite Qred_correct. unfold Qle; cbn. lia.
Qed.

Lemma rows_of_true_scores (bs : list batch) :
  Forall batch_has_true_scores bs →
  Forall batch_aligned bs
  ∧ Forall (λ p, true_score_among p.1 p.2) (rows_of bs).
Proof.
  induction 1 as [|b bs Hb _ [IHa IHr]]; [by split|]. split.
  - constructor; [|done]. by apply Forall2_length in Hb.
  - unfold rows_of. cbn [fmap list_fmap concat]. apply Forall_app. split; [|done].
    unfold batch_has_true_scores in Hb.
    induction Hb as [|t row ts all Ht _ IH]; constructor; done.
Qed.

Lemma rows_of_nonempty (bs : list batch) :
  Forall batch_aligned bs → cat_true_scores bs ≠ [] → rows_of bs ≠ [].
Proof.
  intros Hbs Hne Hrows. destruct (zip_cat bs Hbs) as [Hzip Hlen].
  rewrite Hrows in Hzip. apply (f_equal length) in Hzip.
  rewrite length_zip_with, <- Hlen in Hzip. cbn in Hzip.
  destruct (cat_true_scores bs); [done|]. cbn in Hzip. lia.
Qed.

Lemma mean_le {X} (f g : X → Q) (l : list X) :
  l ≠ [] → Forall (λ x, (f x <= g x)%Q) l →
  (qsum (f <$> l) / inject_Z (Z.of_nat (length l))
   <= qsum (g <$> l) / inject_Z (Z.of_nat (length l)))%Q.
Proof.
  intros Hl Hfg. apply Qdiv_le_compat; [by apply inject_Z_length_pos|].
  by apply qsum_le.
Qed.

(** When the true score of every processed example appears among its
    candidates' scores and at least one example was processed since the
    evaluator was constructed, the mean ranks that [finalize] reports are
    ordered: [1 <= best <= avg <= worst]. *)
Theorem mean_rank_ordering (ks0 : option (list Z)) (flt : bool)
    (bs : list batch) (e : RankBasedEvaluator) :
  Forall batch_has_true_scores bs → cat_true_scores bs ≠ [] →
  process_batches bs (init ks0 flt) = Ok e →
  ∃ qb qa qw,
    get_metric (finalize e).1 "best.mean_rank" = Ok (FFin qb)
    ∧ get_metric (finalize e).1 "avg.mean_rank" = Ok (FFin qa)
    ∧ get_metric (finalize e).1 "worst.mean_rank" = Ok (FFin qw)
    ∧ (1 <= qb)%Q ∧ (qb <= qa)%Q ∧ (qa <= qw)%Q.
Proof.
  intros Hbs Hne He.
  destruct (rows_of_true_scores bs Hbs) as [Hal Hrows].
  destruct (process_batches_accumulated bs Hal (init ks0 flt))
    as (e' & He' & _ & Hacc).
  assert (e' = e) as -> by congruence.
  pose proof (rows_of_nonempty bs Hal Hne) as Hne'.
  set (rows := rows_of bs) in *.
  assert (∀ {X} (f : _ → X), f <$> rows ≠ []) as Hnef
    by (intros X f; by destruct rows).
  change "best.mean_rank" with (RANK_BEST +:+ ".mean_rank").
  change "avg.mean_rank" with (RANK_AVERAGE +:+ ".mean_rank").
  change "worst.mean_rank" with (RANK_WORST +:+ ".mean_rank").
  rewrite !get_metric_mean_rank_accumulated
    by (unfold RANK_TYPES; set_solver).
  rewrite !Hacc, !accumulated_init, !app_nil_l.
  rewrite batch_values_best, batch_values_avg, batch_values_worst.
  destruct (np_mean_fin (qbest <$> rows) (Hnef _ _)) as (qb & -> & Hqb).
  destruct (np_mean_fin (qavg <$> rows) (Hnef _ _)) as (qa & -> & Hqa).
  destruct (np_mean_fin (qworst <$> rows) (Hnef _ _)) as (qw & -> & Hqw).
  exists qb, qa, qw. split_and!; [done..| | |];
    rewrite ?Hqb, ?Hqa, ?Hqw, !length_fmap.
  - assert (1 == qsum ((λ _, 1%Q) <$> rows)
                 / inject_Z (Z.of_nat (length rows)))%Q as ->.
    { rewrite qsum_const. field. intros H0.
      pose proof (inject_Z_length_pos rows Hne') as Hpos.
      rewrite H0 in Hpos. by apply Qlt_irrefl in Hpos. }
    apply mean_le; [done|]. eapply Forall_impl; [exact Hrows|].
    intros p Hp. by destruct (qranks_ordered p Hp).
  - apply mean_le; [done|]. eapply Forall_impl; [exact Hrows|].
    intros p Hp. by destruct (qranks_ordered p Hp) as (_ & ? & _).
  - apply mean_le; [done|]. eapply Forall_impl; [exact Hrows|].
    intros p Hp. by destruct (qranks_ordered p Hp) as (_ & _ & ?).
Qed.

Lemma mean_rank_ordering_witness :
  ∃ e, process_batches example_batches (init None true) = Ok e
     ∧ ∃ qb qa qw,
         get_metric (finalize e).1 "best.mean_rank" = Ok (FFin qb)
         ∧ get_metric (finalize e).1 "avg.mean_rank" = Ok (FFin qa)
         ∧ get_metric (finalize e).1 "worst.mean_rank" = Ok (FFin qw)
         ∧ (1 <= qb)%Q ∧ (qb <= qa)%Q ∧ (qa <= qw)%Q.
Proof.
  eexists. split; [reflexivity|].
  apply (mean_rank_ordering None true example_batches).
  - repeat constructor; (eexists; split; [constructor|reflexivity]).
  - discriminate.
  - reflexivity.
Defined.

Lemma qsum_nonneg {X} (f : X → Q) (l : list X) :
  Forall (λ x, (0 < f x)%Q) l → (0 <= qsum (f <$> l))%Q.
Proof.
  induction 1 as [|x l Hx _ IH]; cbn [fmap list_fmap qsum]; [apply Qle_refl|].
  change (list_fmap _ _ ?f l) with (f <$> l).
  apply Qlt_le_weak in Hx.
  rewrite <- (Qplus_0_l 0). by apply Qplus_le_compat.
Qed.

Lemma mean_pos {X} (f : X → Q) (l : list X) :
  l ≠ [] → Forall (λ x, (0 < f x)%Q) l →
  (0 < qsum (f <$> l) / inject_Z (Z.of_nat (length l)))%Q.
Proof.
  intros Hl Hf. apply Qlt_shift_div_l; [by apply inject_Z_length_pos|].
  rewrite Qmult_0_l. destruct Hf as [|x l' Hx Hl']; [done|].
  cbn [fmap list_fmap qsum]. change (list_fmap _ _ ?f l') with (f <$> l').
  pose proof (qsum_nonneg f l' Hl') as Hs.
  rewrite <- (Qplus_0_l 0). by apply Qplus_lt_le_compat.
Qed.

Lemma get_metric_mrr_accumulated (self : RankBasedEvaluator)
    (rank_type : string) (l : list pyval) :
  rank_type ∈ RANK_TYPES → accumulated self rank_type = l → l ≠ [] →
  get_metric (finalize self).1 (rank_type +:+ ".mean_reciprocal_rank")
  = Ok (np_mean (np_reciprocal (float_of_pyval <$> l))).
Proof.
  intros Hrt Hl Hne. destruct (finalize_lookups self rank_type Hrt) as (_ & Hmrr & _).
  rewrite get_metric_mean_reciprocal_rank_key by done.
  unfold getitem. rewrite Hmrr. unfold accumulated in Hl.
  destruct (ranks self !! rank_type) as [l'|]; cbn in Hl; by subst.
Qed.

Lemma qbest_ge_1 (p : score * list score) : (1 <= qbest p)%Q.
Proof.
  unfold qbest. pose proof (best_rank_row_pos p.1 p.2).
  unfold Qle, inject_Z; cbn. lia.
Qed.

Lemma reciprocal_best (rows : list (score * list score)) :
  np_reciprocal (FFin <$> (qbest <$> rows)) = FFin <$> (qrecip_best <$> rows).
Proof.
  unfold np_reciprocal. rewrite <- !list_fmap_compose.
  apply list_fmap_ext. intros _ p _. cbn. unfold qrecip_best.
  assert (Qeq_bool (qbest p) 0 = false) as ->; [|done].
  apply not_true_is_false. intros H%Qeq_bool_iff.
  pose proof (qbest_ge_1 p) as Hp. rewrite H in Hp. by apply Hp.
Qed.

Lemma qrecip_best_bounds (p : score * list score) :
  (0 < qrecip_best p)%Q ∧ (qrecip_best p <= 1)%Q.
Proof.
  unfold qrecip_best. pose proof (qbest_ge_1 p) as Hp.
  assert (0 < qbest p)%Q as Hpos by (eapply Qlt_le_trans; [|exact Hp]; done).
  rewrite Qred_correct. split.
  - apply Qlt_shift_div_l; [done|]. by rewrite Qmult_0_l.
  - apply Qle_shift_div_r; [done|]. by rewrite Qmult_1_l.
Qed.

(** When at least one example was processed since the evaluator was
    constructed, the mean reciprocal rank of the best kind is a number
    greater than 0 and at most 1. *)
Theorem best_mean_reciprocal_rank_bounds (ks0 : option (list Z)) (flt : bool)
    (bs : list batch) (e : RankBasedEvaluator) :
  Forall batch_aligned bs → cat_true_scores bs ≠ [] →
  process_batches bs (init ks0 flt) = Ok e →
  ∃ q, get_metric (finalize e).1 "best.mean_reciprocal_rank" = Ok (FFin q)
     ∧ (0 < q)%Q ∧ (q <= 1)%Q.
Proof.
  intros Hal Hne He.
  destruct (process_batches_accumulated bs Hal (init ks0 flt))
    as (e' & He' & _ & Hacc).
  assert (e' = e) as -> by congruence.
  pose proof (rows_of_nonempty bs Hal Hne) as Hne'.
  set (rows := rows_of bs) in *.
  change "best.mean_reciprocal_rank"
    with (RANK_BEST +:+ ".mean_reciprocal_rank").
  rewrite (get_metric_mrr_accumulated e RANK_BEST
             (batch_values RANK_BEST rows)).
  2: { constructor. }
  2: { by rewrite Hacc, accumulated_init. }
  2: { rewrite <- length_zero_iff_nil, batch_values_length by constructor.
       by rewrite length_zero_iff_nil. }
  rewrite batch_values_best, reciprocal_best.
  destruct (np_mean_fin (qrecip_best <$> rows)) as (q & -> & Hq).
  { by destruct rows. }
  exists q. split; [done|]. rewrite Hq, length_fmap. split.
  - apply mean_pos; [done|]. apply Forall_forall. intros p _.
    by destruct (qrecip_best_bounds p).
  - assert (1 == qsum ((λ _, 1%Q) <$> rows)
                 / inject_Z (Z.of_nat (length rows)))%Q as Hone.
    { rewrite qsum_const. field. intros H0.
      pose proof (inject_Z_length_pos rows Hne') as Hpos.
      rewrite H0 in Hpos. by apply Qlt_irrefl in Hpos. }
    apply (Qle_trans _ (qsum ((λ _, 1%Q) <$> rows)
                        / inject_Z (Z.of_nat (length rows))));
      [|rewrite <- Hone; apply Qle_refl].
    apply mean_le; [done|]. apply Forall_forall. intros p _.
    by destruct (qrecip_best_bounds p).
Qed.

Lemma best_mean_reciprocal_rank_bounds_witness :
  ∃ e, process_batches example_batches (init None true) = Ok e
     ∧ ∃ q, get_metric (finalize e).1 "best.mean_reciprocal_rank"
            = Ok (FFin q)
          ∧ (0 < q)%Q ∧ (q <= 1)%Q.
Proof.
  eexists. split; [reflexivity|].
  apply (best_mean_reciprocal_rank_bounds None true example_batches).
  - repeat constructor.
  - discriminate.
  - reflexivity.
Defined.

Lemma adjusted_rank_row_qadj (p : score * list score) :
  adjusted_rank_row p.1 p.2 = FFin (qadj p) ∧ (0 < qadj p)%Q.
Proof.
  unfold qadj.
  destruct (adjusted_rank_row_value p.1 p.2) as (q & -> & Hq).
  split; [done|]. rewrite Hq.
  pose proof (best_rank_row_pos p.1 p.2) as Hb.
  pose proof (count_true_nonneg ((λ x, score_ge x p.1) <$> p.2)) as Hw.
  fold (worst_rank_row p.1 p.2) in Hw.
  pose proof (n_finite_row_nonneg p.2) as Hn.
  apply Qlt_shift_div_l.
  - unfold Qlt, Qplus, inject_Z; cbn. lia.
  - rewrite Qmult_0_l. unfold Qlt, inject_Z; cbn. lia.
Qed.

Lemma batch_values_adj (rows : list (score * list score)) :
  float_of_pyval <$> batch_values RANK_AVERAGE_ADJUSTED rows
  = FFin <$> (qadj <$> rows).
Proof.
  unfold batch_values, ranks_of_rows; cbn [dict_get].
  change (String.eqb RANK_BEST RANK_AVERAGE_ADJUSTED) with false.
  change (String.eqb RANK_WORST RANK_AVERAGE_ADJUSTED) with false.
  change (String.eqb RANK_AVERAGE RANK_AVERAGE_ADJUSTED) with false.
  change (String.eqb RANK_AVERAGE_ADJUSTED RANK_AVERAGE_ADJUSTED) with true.
  cbn [tolist from_option].
  rewrite <- !list_fmap_compose. apply list_fmap_ext. intros _ p _.
  change (adjusted_rank_row p.1 p.2 = FFin (qadj p)).
  by destruct (adjusted_rank_row_qadj p) as [-> _].
Qed.

(** When at least one example was processed since the evaluator was
    constructed, the adjusted mean rank is a positive number: it is never
    not-a-number and never infinite, whatever the scores are. *)
Theorem adjusted_mean_rank_positive (ks0 : option (list Z)) (flt : bool)
    (bs : list batch) (e : RankBasedEvaluator) :
  Forall batch_aligned bs → cat_true_scores bs ≠ [] →
  process_batches bs (init ks0 flt) = Ok e →
  ∃ q, get_metric (finalize e).1 "adjusted_mean_rank" = Ok (FFin q)
     ∧ (0 < q)%Q.
Proof.
  intros Hal Hne He.
  destruct (process_batches_accumulated bs Hal (init ks0 flt))
    as (e' & He' & _ & Hacc).
  assert (e' = e) as -> by congruence.
  pose proof (rows_of_nonempty bs Hal Hne) as Hne'.
  set (rows := rows_of bs) in *.
  change (get_metric (finalize e).1 "adjusted_mean_rank")
    with (@Ok fnum (np_mean (np_asarray (ranks e !! RANK_AVERAGE_ADJUSTED)))).
  rewrite np_mean_asarray.
  change (default [] (ranks e !! RANK_AVERAGE_ADJUSTED))
    with (accumulated e RANK_AVERAGE_ADJUSTED).
  rewrite Hacc, accumulated_init, app_nil_l, batch_values_adj.
  destruct (np_mean_fin (qadj <$> rows)) as (q & -> & Hq).
  { by destruct rows. }
  exists q. split; [done|]. rewrite Hq, length_fmap.
  apply mean_pos; [done|]. apply Forall_forall. intros p _.
  by destruct (adjusted_rank_row_qadj p).
Qed.

Lemma adjusted_mean_rank_positive_witness :
  ∃ e, process_batches example_batches (init None true) = Ok e
     ∧ ∃ q, get_metric (finalize e).1 "adjusted_mean_rank" = Ok (FFin q)
          ∧ (0 < q)%Q.
Proof.
  eexists. split; [reflexivity|].
  apply (adjusted_mean_rank_positive None true example_batches).
  - repeat constructor.
  - discriminate.
  - reflexivity.
Defined.

Lemma foldl_fadd_inf (l : list fnum) (acc : fnum) :
  Forall (λ x, x = FInf false ∨ ∃ q, x = FFin q) l →
  (acc = FInf false ∨ ∃ q, acc = FFin q) →
  (acc = FInf false ∨ FInf false ∈ l) →
  foldl fadd acc l = FInf false.
Proof.
  intros Hl. revert acc. induction Hl as [|x l Hx _ IH]; intros acc Hacc Hinf.
  - by destruct Hinf as [->|?%elem_of_nil].
  - cbn [foldl]. apply IH.
    + destruct Hacc as [->|[a ->]], Hx as [->|[b ->]]; cbn; eauto.
    + destruct Hacc as [->|[a ->]], Hx as [->|[b ->]]; cbn; eauto.
      right. destruct Hinf as [[=]|[[=]|?]%elem_of_cons]. done.
Qed.

Lemma reciprocal_worst (p : score * list score) :
  (worst_rank_row p.1 p.2 = 0 ∧ fdiv fone (FFin (qworst p)) = FInf false)
  ∨ ∃ q, fdiv fone (FFin (qworst p)) = FFin q.
Proof.
  unfold qworst. destruct (decide (worst_rank_row p.1 p.2 = 0)) as [->|Hw].
  - left. done.
  - right. unfold fone, fdiv.
    assert (Qeq_bool (inject_Z (worst_rank_row p.1 p.2)) 0 = false) as ->;
      [|by eexists].
    apply not_true_is_false. intros H%Qeq_bool_iff.
    unfold Qeq, inject_Z in H; cbn in H. lia.
Qed.

Lemma elem_of_zip_l {X Y} (l : list X) (k : list Y) (x : X) :
  length l = length k → x ∈ l → ∃ y, (x, y) ∈ zip l k.
Proof.
  intros Hlen (i & Hi)%list_elem_of_lookup.
  destruct (lookup_lt_is_Some_2 k i) as [y Hy].
  { rewrite <- Hlen. by eapply lookup_lt_Some. }
  exists y. apply list_elem_of_lookup. exists i. by apply lookup_zip_Some.
Qed.

(** A true score that is not-a-number gives its example the worst rank 0,
    whose reciprocal is infinite: once such an example was processed, the
    mean reciprocal rank of the worst kind is plus infinity. *)
Theorem nan_true_score_infinite_worst_mrr (ks0 : option (list Z)) (flt : bool)
    (bs : list batch) (e : RankBasedEvaluator) :
  Forall batch_aligned bs → nan ∈ cat_true_scores bs →
  process_batches bs (init ks0 flt) = Ok e →
  get_metric (finalize e).1 "worst.mean_reciprocal_rank" = Ok (FInf false).
Proof.
  intros Hal Hnan He.
  destruct (process_batches_accumulated bs Hal (init ks0 flt))
    as (e' & He' & _ & Hacc).
  assert (e' = e) as -> by congruence.
  destruct (zip_cat bs Hal) as [Hzip Hlen].
  destruct (elem_of_zip_l _ _ nan Hlen Hnan) as [row Hrow].
  rewrite Hzip in Hrow.
  assert (rows_of bs ≠ []) as Hne' by (intros H; rewrite H in Hrow;
                                        by apply elem_of_nil in Hrow).
  set (rows := rows_of bs) in *.
  change "worst.mean_reciprocal_rank"
    with (RANK_WORST +:+ ".mean_reciprocal_rank").
  rewrite (get_metric_mrr_accumulated e RANK_WORST
             (batch_values RANK_WORST rows)).
  2: { apply elem_of_cons. right. constructor. }
  2: { by rewrite Hacc, accumulated_init. }
  2: { rewrite <- length_zero_iff_nil, batch_values_length.
       - by rewrite length_zero_iff_nil.
       - apply elem_of_cons. right. constructor. }
  rewrite batch_values_worst. unfold np_mean, np_reciprocal.
  rewrite <- !list_fmap_compose, length_fmap.
  rewrite foldl_fadd_inf.
  - unfold float_of_Z, fdiv. f_equal.
    destruct rows; [done|]. reflexivity.
  - apply Forall_fmap, Forall_forall. intros p _.
    change ((fdiv fone (FFin (qworst p)) = FInf false)
            ∨ ∃ q, fdiv fone (FFin (qworst p)) = FFin q).
    destruct (reciprocal_worst p) as [[_ ->]|[q ->]]; eauto.
  - right. unfold fzero. eauto.
  - right. apply list_elem_of_fmap. exists (nan, row). split; [|done].
    change (FInf false = fdiv fone (FFin (qworst (nan, row)))).
    unfold qworst, worst_rank_row. cbn [fst snd].
    by rewrite count_true_all_false.
Qed.

Lemma nan_true_score_infinite_worst_mrr_witness :
  ∃ e, process_batches
         [ {| batch_direction := TailPrediction; batch_hrt := [];
              batch_true_scores := [f32 3; nan];
              batch_scores := [[f32 3; f32 2]; [nan; f32 1]];
              batch_mask := None |} ] (init None true) = Ok e
     ∧ get_metric (finalize e).1 "worst.mean_reciprocal_rank"
       = Ok (FInf false).
Proof.
  eexists. split; [reflexivity|].
  apply (nan_true_score_infinite_worst_mrr None true
           [ {| batch_direction := TailPrediction; batch_hrt := [];
                batch_true_scores := [f32 3; nan];
                batch_scores := [[f32 3; f32 2]; [nan; f32 1]];
                batch_mask := None |} ]).
  - repeat constructor.
  - apply elem_of_cons. right. constructor.
  - reflexivity.
Defined.

(** * Masking and names *)

Lemma count_true_insert_false {X} (p : X → bool) (y : X) (l : list X) (j : nat) :
  p y = false → count_true (p <$> <[j := y]> l) ≤ count_true (p <$> l).
Proof.
  intros Hy. revert j. induction l as [|x l IH]; intros j; [done|].
  destruct j as [|j].
  - change (<[0%nat := y]> (x :: l)) with (y :: l).
    cbn [fmap list_fmap count_true]. rewrite Hy. destruct (p x); lia.
  - change (<[S j := y]> (x :: l)) with (x :: <[j := y]> l).
    cbn [fmap list_fmap count_true].
    change (list_fmap _ _ ?f ?k) with (f <$> k).
    specialize (IH j). destruct (p x); lia.
Qed.

(** Masking a candidate, that is replacing its score by not-a-number as the
    filtered protocol does for other known triples, never makes the best or
    the worst rank of the example larger. *)
Theorem masking_never_worsens (true_score : list score)
    (all_scores : list (list score)) (i j : nat) (t : score)
    (row : list score) :
  length true_score = length all_scores →
  true_score !! i = Some t → all_scores !! i = Some row →
  ∃ best worst avg adj best' worst' avg' adj',
    compute_rank_from_scores true_score all_scores
    = Ok [ (RANK_BEST, IntTensor best); (RANK_WORST, IntTensor worst);
           (RANK_AVERAGE, FloatTensor avg);
           (RANK_AVERAGE_ADJUSTED, FloatTensor adj) ]
    ∧ compute_rank_from_scores true_score
        (<[i := <[j := nan]> row]> all_scores)
      = Ok [ (RANK_BEST, IntTensor best'); (RANK_WORST, IntTensor worst');
             (RANK_AVERAGE, FloatTensor avg');
             (RANK_AVERAGE_ADJUSTED, FloatTensor adj') ]
    ∧ ∃ b w b' w',
        best !! i = Some b ∧ worst !! i = Some w
        ∧ best' !! i = Some b' ∧ worst' !! i = Some w'
        ∧ b' ≤ b ∧ w' ≤ w.
Proof.
  intros Hlen Ht Hrow.
  rewrite !compute_rank_from_scores_aligned by (by rewrite ?length_insert).
  unfold ranks_of_rows. do 8 eexists.
  split; [reflexivity|]. split; [reflexivity|].
  assert (<[i := <[j := nan]> row]> all_scores !! i = Some (<[j := nan]> row))
    as Hrow'.
  { apply list_lookup_insert_eq. by eapply lookup_lt_Some. }
  exists (best_rank_row t row), (worst_rank_row t row),
    (best_rank_row t (<[j := nan]> row)), (worst_rank_row t (<[j := nan]> row)).
  split; [by apply (lookup_ranks_aligned (λ p, best_rank_row p.1 p.2))|].
  split; [by apply (lookup_ranks_aligned (λ p, worst_rank_row p.1 p.2))|].
  split; [by apply (lookup_ranks_aligned (λ p, best_rank_row p.1 p.2))|].
  split; [by apply (lookup_ranks_aligned (λ p, worst_rank_row p.1 p.2))|].
  unfold best_rank_row, worst_rank_row. split.
  - pose proof (count_true_insert_false (λ x, score_gt x t) nan row j
                  (score_nan_gt t)). lia.
  - apply (count_true_insert_false (λ x, score_ge x t) nan row j
             (score_nan_ge t)).
Qed.

Lemma masking_never_worsens_witness :
  ∃ best worst avg adj best' worst' avg' adj',
    compute_rank_from_scores [f32 5] [[f32 5; f32 7; f32 9]]
    = Ok [ (RANK_BEST, IntTensor best); (RANK_WORST, IntTensor worst);
           (RANK_AVERAGE, FloatTensor avg);
           (RANK_AVERAGE_ADJUSTED, FloatTensor adj) ]
    ∧ compute_rank_from_scores [f32 5]
        (<[0%nat := <[1%nat := nan]> [f32 5; f32 7; f32 9]]>
           [[f32 5; f32 7; f32 9]])
      = Ok [ (RANK_BEST, IntTensor best'); (RANK_WORST, IntTensor worst');
             (RANK_AVERAGE, FloatTensor avg');
             (RANK_AVERAGE_ADJUSTED, FloatTensor adj') ]
    ∧ ∃ b w b' w',
        best !! 0%nat = Some b ∧ worst !! 0%nat = Some w
        ∧ best' !! 0%nat = Some b' ∧ worst' !! 0%nat = Some w'
        ∧ b' ≤ b ∧ w' ≤ w.
Proof.
  apply (masking_never_worsens [f32 5] [[f32 5; f32 7; f32 9]] 0 1 (f32 5)
           [f32 5; f32 7; f32 9]); reflexivity.
Defined.

(** The suffix of a hits-at-k name is read with [int]: for a rank kind of
    best, worst or avg and a suffix other than the letter k that [int]
    accepts, with value [z], [get_metric] returns the entry for [z] of the
    hits dictionary of that rank kind, and raises [KeyError] when there is
    none. *)
Theorem get_metric_hits_int_literal (self : RankBasedMetricResults)
    (rank_type k : string) (z : Z) :
  rank_type ∈ RANK_TYPES → str_count k "." = 0%nat → k ≠ "k" →
  py_int k = Ok z →
  get_metric self (rank_type +:+ ".hits_at_" +:+ k)
  = getitem (hits_at_k self) rank_type ≫= λ h, getitem h z.
Proof.
  intros Hrt Hdots Hk Hz.
  change (rank_type +:+ ".hits_at_" +:+ k)
    with (rank_type +:+ String "." ("hits_at_" +:+ k)).
  rewrite get_metric_dotted;
    [|by apply RANK_TYPES_no_dot|by rewrite str_count_app, Hdots
     |by apply in_RANK_TYPES_spec].
  change (String.eqb ("hits_at_" +:+ k) "mean_rank") with false.
  change (String.eqb ("hits_at_" +:+ k) "mean_reciprocal_rank") with false.
  cbv iota. destruct (getitem (hits_at_k self) rank_type) as [h|]; [|done].
  cbn [mbind result_bind hits_lookup].
  rewrite startswith_app. cbn [negb]. rewrite str_drop_app.
  destruct (String.eqb_spec k "k"); [done|]. by rewrite Hz.
Qed.

Lemma get_metric_hits_int_literal_witness :
  get_metric example_results (RANK_AVERAGE +:+ ".hits_at_" +:+ " +0_1 ")
  = getitem (hits_at_k example_results) RANK_AVERAGE ≫= λ h, getitem h 1.
Proof.
  apply (get_metric_hits_int_literal example_results RANK_AVERAGE " +0_1 " 1).
  - unfold RANK_TYPES. apply elem_of_cons. right.
    apply elem_of_cons. right. constructor.
  - reflexivity.
  - discriminate.
  - vm_compute. reflexivity.
Defined.

(** The letter k as suffix stands for 10, in both spellings and for every
    rank kind. *)
Theorem get_metric_hits_k_is_10 (self : RankBasedMetricResults)
    (rank_type : string) :
  rank_type ∈ RANK_TYPES →
  get_metric self (rank_type +:+ ".hits_at_k")
  = get_metric self (rank_type +:+ ".hits_at_10")
  ∧ get_metric self (rank_type +:+ ".hits@k")
    = get_metric self (rank_type +:+ ".hits_at_10").
Proof.
  intros Hrt. unfold RANK_TYPES in Hrt.
  repeat (apply elem_of_cons in Hrt as [->|Hrt]);
    [..|by apply elem_of_nil in Hrt]; by split.
Qed.

Lemma get_metric_hits_k_is_10_witness :
  get_metric example_results (RANK_WORST +:+ ".hits_at_k")
  = get_metric example_results (RANK_WORST +:+ ".hits_at_10")
  ∧ get_metric example_results (RANK_WORST +:+ ".hits@k")
    = get_metric example_results (RANK_WORST +:+ ".hits_at_10").
Proof.
  apply (get_metric_hits_k_is_10 example_results RANK_WORST).
  unfold RANK_TYPES. apply elem_of_cons. right. constructor.
Defined.

(** * Empty batches *)

(** Processing a batch without examples creates the accumulators and leaves
    them empty; [finalize] then reports not-a-number for every mean and for
    every hits value (whereas an evaluator that processed nothing at all
    reports the hits value 0). *)
Theorem empty_batch_then_finalize (ks0 : option (list Z)) (flt : bool)
    (hrt : MappedTriples) (mask : option (list (list bool))) :
  ∃ e, process_tail_scores_ (init ks0 flt) hrt [] [] mask = Ok e
     ∧ process_head_scores_ (init ks0 flt) hrt [] [] mask = Ok e
     ∧ (∀ k, k ∈ [RANK_BEST; RANK_WORST; RANK_AVERAGE; RANK_AVERAGE_ADJUSTED] →
          ranks e !! k = Some [])
     ∧ get_metric (finalize e).1 "adjusted_mean_rank" = Ok FNaN
     ∧ ∀ rank_type, rank_type ∈ RANK_TYPES →
         get_metric (finalize e).1 (rank_type +:+ ".mean_rank") = Ok FNaN
         ∧ get_metric (finalize e).1 (rank_type +:+ ".mean_reciprocal_rank")
           = Ok FNaN
         ∧ ∀ k, k ∈ ks e →
             get_metric (finalize e).1
               (rank_type +:+ ".hits_at_" +:+ str_of_int k) = Ok FNaN.
Proof.
  eexists. split; [reflexivity|]. split; [reflexivity|].
  match goal with |- context [finalize ?x] => set (e := x) end.
  assert (∀ k, k ∈ [RANK_BEST; RANK_WORST; RANK_AVERAGE; RANK_AVERAGE_ADJUSTED] →
            ranks e !! k = Some []) as Hempty.
  { intros k Hk. repeat (apply elem_of_cons in Hk as [->|Hk]);
      [..|by apply elem_of_nil in Hk]; reflexivity. }
  split; [done|]. split; [reflexivity|].
  intros rank_type Hrt.
  assert (ranks e !! rank_type = Some []) as Hr.
  { apply Hempty. unfold RANK_TYPES in Hrt.
    repeat (apply elem_of_cons in Hrt as [->|Hrt]);
      [..|by apply elem_of_nil in Hrt];
      repeat (first [constructor; fail | apply elem_of_cons; right]);
      constructor. }
  destruct (finalize_lookups e rank_type Hrt) as (Hmr & Hmrr & _).
  rewrite Hr in Hmr, Hmrr. split_and!.
  - rewrite get_metric_mean_rank_key by done. unfold getitem. by rewrite Hmr.
  - rewrite get_metric_mean_reciprocal_rank_key by done.
    unfold getitem. by rewrite Hmrr.
  - intros k Hk. rewrite get_metric_hits_after_finalize by done.
    by rewrite decide_True, Hr.
Qed.

(** * [TriplesNumericLiteralsFactory] *)

(** [create_instances] never returns: whatever the number of stack frames
    left, the call ends in a [RecursionError]. *)
Theorem create_instances_never_returns (frames : nat) :
  create_instances frames = RaisesRecursionError.
Proof.
  induction frames as [|frames IH]; [done|].
  cbn [create_instances]. by rewrite IH.
Qed.
